(** * add_icon_padding.py: padding an icon with a transparent border

  A shallow embedding of [src/add_icon_padding.py].  The script opens an
  image, computes a padding per axis with [int(old * padding_percent / 100)],
  allocates a transparent canvas, pastes the image in its centre and saves
  the canvas as a PNG; the entry point catches every exception, prints
  [Error: ...] and exits with status 1.

  The development has three layers:
  - [Py]: the Python values the script computes with (exceptions, [int],
    [float] as IEEE 754 binary64 through the Standard Library's [SpecFloat],
    and the operators [*], [/] and [int()]);
  - [PIL]: the image operations the script calls, as a state and error
    monad over a file store, the two output streams and a trace of the
    library calls;
  - the script itself ([add_padding], [main]) and the theorems. *)

From Stdlib Require Import ZArith Lia Floats.SpecFloat.
From stdpp Require Import gmap strings list pretty.

Local Open Scope Z_scope.

(** ** Python values *)

Module Py.

(** The exception classes that the script can meet, with the text that
    [str(e)] gives. *)
Inductive exn :=
| FileNotFoundError (path : string)
| UnidentifiedImageError (path : string)
| ValueError (msg : string)
| OverflowError (msg : string)
| ZeroDivisionError (msg : string)
| MemoryError
| OSError (msg : string).

Definition str (e : exn) : string :=
  match e with
  | FileNotFoundError path =>
      "[Errno 2] No such file or directory: '" +:+ path +:+ "'"
  | UnidentifiedImageError path =>
      "cannot identify image file '" +:+ path +:+ "'"
  | ValueError msg | OverflowError msg | ZeroDivisionError msg
  | OSError msg => msg
  | MemoryError => EmptyString
  end.

(** A computation that returns or raises. *)
Definition result (A : Type) : Type := (exn + A)%type.

Definition ret {A} (a : A) : result A := inr a.
Definition raise {A} (e : exn) : result A := inl e.
Definition bind {A B} (r : result A) (k : A -> result B) : result B :=
  match r with
  | inl e => inl e
  | inr a => k a
  end.

(** [float] is binary64: 53 bits of precision, infinities at exponent 1024. *)
Abbreviation prec := 53 (only parsing).
Abbreviation emax := 1024 (only parsing).

Inductive number :=
| Int (z : Z)
| Float (f : spec_float).

(** [float(z)] for an [int]: the nearest double, ties to even. *)
Definition float_of_int (z : Z) : result spec_float :=
  match binary_normalize prec emax z 0 false with
  | S754_infinity _ => raise (OverflowError "int too large to convert to float")
  | f => ret f
  end.

(** [a / b] on two [int]s: the correctly rounded quotient (CPython's
    [long_true_divide]), whatever the size of the operands. *)
Definition long_true_divide (a b : Z) : result spec_float :=
  match a, b with
  | _, Z0 => raise (ZeroDivisionError "division by zero")
  | Z0, _ => ret (S754_zero (b <? 0))
  | _, _ =>
      match SFdiv prec emax
              (S754_finite (a <? 0) (Z.to_pos (Z.abs a)) 0)
              (S754_finite (b <? 0) (Z.to_pos (Z.abs b)) 0) with
      | S754_infinity _ =>
          raise (OverflowError "integer division result too large for a float")
      | f => ret f
      end
  end.

(** [x / y] on two [float]s. *)
Definition float_div (x y : spec_float) : result spec_float :=
  match y with
  | S754_zero _ => raise (ZeroDivisionError "float division by zero")
  | _ => ret (SFdiv prec emax x y)
  end.

(** [x * y]. *)
Definition mul (x y : number) : result number :=
  match x, y with
  | Int a, Int b => ret (Int (a * b))
  | Int a, Float g => bind (float_of_int a) (fun f => ret (Float (SFmul prec emax f g)))
  | Float f, Int b => bind (float_of_int b) (fun g => ret (Float (SFmul prec emax f g)))
  | Float f, Float g => ret (Float (SFmul prec emax f g))
  end.

(** [x / y]: always a [float]. *)
Definition truediv (x y : number) : result number :=
  match x, y with
  | Int a, Int b => bind (long_true_divide a b) (fun q => ret (Float q))
  | Int a, Float g =>
      bind (float_of_int a) (fun f => bind (float_div f g) (fun q => ret (Float q)))
  | Float f, Int b =>
      bind (float_of_int b) (fun g => bind (float_div f g) (fun q => ret (Float q)))
  | Float f, Float g => bind (float_div f g) (fun q => ret (Float q))
  end.

(** [int(f)] for a [float]: truncation towards zero. *)
Definition float_trunc (f : spec_float) : result Z :=
  match f with
  | S754_zero _ => ret 0
  | S754_infinity _ => raise (OverflowError "cannot convert float infinity to integer")
  | S754_nan => raise (ValueError "cannot convert float NaN to integer")
  | S754_finite s m e => ret (cond_Zopp s (Z.shiftl (Z.pos m) e))
  end.

(** [int(x)]. *)
Definition int (x : number) : result Z :=
  match x with
  | Int z => ret z
  | Float f => float_trunc f
  end.

(** [str(x)] is Python's decimal text for an [int]; the shortest
    round-tripping text of a [float] is left to the parameter [repr]. *)
Definition format (repr : spec_float -> string) (x : number) : string :=
  match x with
  | Int z => pretty z
  | Float f => repr f
  end.

(** [x >= 0]. *)
Definition nonneg (x : number) : Prop :=
  match x with
  | Int z => 0 <= z
  | Float f => SFleb (S754_zero false) f = true
  end.

(** [x > 0]. *)
Definition positive (x : number) : Prop :=
  match x with
  | Int z => 0 < z
  | Float f => SFltb (S754_zero false) f = true
  end.

(** [x == 0]. *)
Definition is_zero (x : number) : Prop :=
  match x with
  | Int z => z = 0
  | Float f => SFeqb (S754_zero false) f = true
  end.

End Py.

(** ** The image library and the process around it *)

Module PIL.

(** A pixel is [(r, g, b, a)]. *)
Definition pixel : Type := Z * Z * Z * Z.

Definition alpha (p : pixel) : Z := snd p.

(** An image as the script sees it: [img.mode], [img.size] and the pixel
    at each coordinate.  Only coordinates inside [size] are meaningful. *)
Record image := Image {
  mode : string;
  size : Z * Z;
  getpixel : Z * Z -> pixel
}.

(** What a path of the file store holds: an image file, or bytes that no
    decoder accepts.  PNG is lossless, so a saved image is read back as
    it was. *)
Inductive file :=
| Encoded (im : image)
| Corrupt.

(** The library calls of a run, in order. *)
Inductive call :=
| COpen (path : string)
| CConvert (to : string)
| CNew (md : string) (sz : Z * Z)
| CResize (from to : Z * Z)
| CPaste (box : Z * Z)
| CSave (path : string).

(** The state of the process.  The file store is keyed by the path as
    the script writes it: two spellings of one file are two keys. *)
Record world := World {
  files : gmap string file;
  stdout : list string;
  stderr : list string;
  calls : list call
}.

(** What the script does not decide: the pixel arithmetic of the library,
    the failures of the environment (memory, permissions, a missing
    directory), what a failed write leaves behind, and the text of a
    [float]. *)
Class Platform := {
  convert_pixel : string -> string -> pixel -> pixel;
  resample : image -> Z * Z -> Z * Z -> pixel;
  blend : Z -> Z -> Z -> Z;
  fault : call -> option Py.exn;
  failed_write : string -> gmap string file -> gmap string file;
  float_repr : spec_float -> string
}.

(** State and exceptions. *)
Definition M (A : Type) : Type := world -> Py.result A * world.

Definition mret {A} (a : A) : M A := fun w => (inr a, w).

Definition mraise {A} (e : Py.exn) : M A := fun w => (inl e, w).

Definition mbind {A B} (m : M A) (k : A -> M B) : M B :=
  fun w =>
    match m w with
    | (inl e, w') => (inl e, w')
    | (inr a, w') => k a w'
    end.

Definition lift {A} (r : Py.result A) : M A := fun w => (r, w).

Definition trace (c : call) : M unit :=
  fun w => (inr tt, World (files w) (stdout w) (stderr w) (calls w ++ [c])).

Definition guard `{Platform} (c : call) : M unit :=
  match fault c with
  | Some e => mraise e
  | None => mret tt
  end.

(** [print(line)], on a standard output that takes the text. *)
Definition print (line : string) : M unit :=
  fun w => (inr tt, World (files w) (stdout w ++ [line]) (stderr w) (calls w)).

End PIL.

Declare Scope py_scope.
Delimit Scope py_scope with py.
Notation "x <- m ;; k" := (PIL.mbind m (fun x => k))
  (at level 100, m at next level, right associativity) : py_scope.
Notation "m ;; k" := (PIL.mbind m (fun _ => k))
  (at level 100, right associativity) : py_scope.

Module Image.
Import PIL.
Local Open Scope py_scope.

(** [Image.open(path)]. *)
Definition open (path : string) : M image :=
  trace (COpen path);;
  fun w =>
    match files w !! path with
    | None => (inl (Py.FileNotFoundError path), w)
    | Some Corrupt => (inl (Py.UnidentifiedImageError path), w)
    | Some (Encoded im) => (inr im, w)
    end.

Definition converted `{Platform} (im : image) (to : string) : image :=
  {| mode := to;
     size := size im;
     getpixel := fun xy => convert_pixel (mode im) to (getpixel im xy) |}.

(** [im.convert(to)]. *)
Definition convert `{Platform} (im : image) (to : string) : M image :=
  trace (CConvert to);;
  guard (CConvert to);;
  mret (converted im to).

Definition blank (md : string) (sz : Z * Z) (color : pixel) : image :=
  {| mode := md; size := sz; getpixel := fun _ => color |}.

(** [Image.new(md, sz, color)]: a negative width or height is refused.
    The upper limits of the library on a size are left to [fault]; the
    statements that need them ask for [canvas_fits] below. *)
Definition new `{Platform} (md : string) (sz : Z * Z) (color : pixel) : M image :=
  trace (CNew md sz);;
  if (fst sz <? 0) || (snd sz <? 0)
  then mraise (Py.ValueError "Width and height must be >= 0")
  else guard (CNew md sz);; mret (blank md sz color).

Definition resized `{Platform} (im : image) (sz : Z * Z) : image :=
  {| mode := mode im; size := sz; getpixel := resample im sz |}.

(** [im.resize(sz, Image.Resampling.LANCZOS)]: an image of the size asked
    for. *)
Definition resize `{Platform} (im : image) (sz : Z * Z) : M image :=
  trace (CResize (size im) sz);;
  guard (CResize (size im) sz);;
  mret (resized im sz).

(** The region that [paste] writes: the box of the size of the source with
    its upper left corner at [box]. *)
Definition inside (box sz xy : Z * Z) : bool :=
  (fst box <=? fst xy) && (fst xy <? fst box + fst sz) &&
  (snd box <=? snd xy) && (snd xy <? snd box + snd sz).

Definition blend_pixel `{Platform} (m : Z) (below above : pixel) : pixel :=
  let '(r1, g1, b1, a1) := below in
  let '(r2, g2, b2, a2) := above in
  (blend m r1 r2, blend m g1 g2, blend m b1 b2, blend m a1 a2).

Definition pasted `{Platform} (dest src : image) (box : Z * Z) (mask : image) : image :=
  {| mode := mode dest;
     size := size dest;
     getpixel := fun xy =>
       if inside box (size src) xy
       then
         let rel := (fst xy - fst box, snd xy - snd box) in
         blend_pixel (alpha (getpixel mask rel)) (getpixel dest xy) (getpixel src rel)
       else getpixel dest xy |}.

(** [dest.paste(src, box, mask)] changes [dest] in place; here it returns
    the changed image. *)
Definition paste `{Platform} (dest src : image) (box : Z * Z) (mask : image) : M image :=
  trace (CPaste box);;
  guard (CPaste box);;
  mret (pasted dest src box mask).

(** [im.save(path, 'PNG')].  An image with an empty side, which the
    library does not write, is left to [fault] as well. *)
Definition save `{Platform} (im : image) (path : string) : M unit :=
  trace (CSave path);;
  fun w =>
    match fault (CSave path) with
    | Some e =>
        (inl e, World (failed_write path (files w)) (stdout w) (stderr w) (calls w))
    | None =>
        (inr tt, World (<[path := Encoded im]> (files w)) (stdout w) (stderr w) (calls w))
    end.

End Image.

(** ** The script *)

Import PIL.
Local Open Scope py_scope.

(** Operands of a Python expression may raise; an operator evaluates its
    operands from left to right and then applies. *)
Definition times (x y : Py.result Py.number) : Py.result Py.number :=
  Py.bind x (fun a => Py.bind y (fun b => Py.mul a b)).

Definition over (x y : Py.result Py.number) : Py.result Py.number :=
  Py.bind x (fun a => Py.bind y (fun b => Py.truediv a b)).

Definition int_ (x : Py.result Py.number) : Py.result Z := Py.bind x Py.int.

Definition lit (z : Z) : Py.result Py.number := Py.ret (Py.Int z).

Definition var (x : Py.number) : Py.result Py.number := Py.ret x.

(** [add_padding(input_path, output_path, padding_percent=15)]. *)
Definition add_padding `{Platform}
    (input_path output_path : string) (padding_percent : Py.number) : M unit :=
  img <- Image.open input_path;;
  img <- (if negb (String.eqb (mode img) "RGBA")
          then Image.convert img "RGBA"
          else mret img);;
  let '(old_width, old_height) := size img in
  padding_x <- lift (int_ (over (times (lit old_width) (var padding_percent)) (lit 100)));;
  padding_y <- lift (int_ (over (times (lit old_height) (var padding_percent)) (lit 100)));;
  let new_width := old_width + (2 * padding_x) in
  let new_height := old_height + (2 * padding_y) in
  new_img <- Image.new "RGBA" (new_width, new_height) (0, 0, 0, 0);;
  let content_width := new_width - (2 * padding_x) in
  let content_height := new_height - (2 * padding_y) in
  img_resized <- Image.resize img (content_width, content_height);;
  new_img <- Image.paste new_img img_resized (padding_x, padding_y) img_resized;;
  Image.save new_img output_path;;
  print ("✓ Created padded icon: " +:+ output_path);;
  print ("  Original size: " +:+ pretty old_width +:+ "x" +:+ pretty old_height);;
  print ("  New size: " +:+ pretty new_width +:+ "x" +:+ pretty new_height);;
  print ("  Padding: " +:+ Py.format float_repr padding_percent +:+ "% ("
         +:+ pretty padding_x +:+ "px horizontal, "
         +:+ pretty padding_y +:+ "px vertical)").

Definition input_file : string := "assets/icon/gitvault.png".
Definition output_file : string := "assets/icon/gitvault_padded.png".

(** The [__main__] block: the exit status of the process and the world it
    leaves.  Every exception of [add_padding] is an [Exception], so the
    handler takes it; [sys.exit(1)] ends the process with status 1, and a
    run that falls off the end has status 0. *)
Definition main `{Platform} (w : world) : Z * world :=
  match add_padding input_file output_file (Py.Int 20) w with
  | (inr _, w') => (0, w')
  | (inl e, w') =>
      match print ("Error: " +:+ Py.str e) w' with
      | (_, w'') => (1, w'')
      end
  end.

(** ** Derived notions used in the statements *)

(** The image that the script works on after its mode check. *)
Definition as_rgba `{Platform} (img : image) : image :=
  if negb (String.eqb (mode img) "RGBA") then Image.converted img "RGBA" else img.

(** The canvas that the script saves for paddings [px] and [py]. *)
Definition padded `{Platform} (img : image) (px py : Z) : image :=
  let '(old_width, old_height) := size img in
  let new_width := old_width + (2 * px) in
  let new_height := old_height + (2 * py) in
  let img_resized := Image.resized img (new_width - (2 * px), new_height - (2 * py)) in
  Image.pasted (Image.blank "RGBA" (new_width, new_height) (0, 0, 0, 0))
    img_resized (px, py) img_resized.

(** The padding that the script computes for one axis. *)
Definition padding_of (old : Z) (padding_percent : Py.number) : Py.result Z :=
  int_ (over (times (lit old) (var padding_percent)) (lit 100)).

(** The size of the image stored at [path], if there is one. *)
Definition stored_size (w : world) (path : string) : option (Z * Z) :=
  match files w !! path with
  | Some (Encoded im) => Some (size im)
  | _ => None
  end.

(** The specification's padding: the mathematical floor of
    [old * p / 100], with a [float] taken at its exact value. *)
Definition spec_padding (old : Z) (p : Py.number) : Z :=
  match p with
  | Py.Int z => old * z / 100
  | Py.Float (S754_finite s m e) =>
      if 0 <=? e
      then old * cond_Zopp s (Z.pos m) * 2 ^ e / 100
      else old * cond_Zopp s (Z.pos m) / (100 * 2 ^ (- e))
  | Py.Float _ => 0
  end.

(** The number of pixels up to which the library opens an image without
    complaint ([Image.MAX_IMAGE_PIXELS], 89478485). *)
Definition MAX_IMAGE_PIXELS : Z := 1024 * 1024 * 1024 / 4 / 3.

(** A canvas size that the library allocates, writes and opens again: no
    side is empty (an empty image is not written) and the number of pixels
    is within [MAX_IMAGE_PIXELS], so that each side fits a C int and a
    line fits the allocator.  [Image.new] and [Image.save] above refuse a
    negative side only; the statements about what a run stores ask for a
    canvas of this kind, where the library refuses nothing. *)
Definition canvas_fits (sz : Z * Z) : Prop :=
  1 <= fst sz /\ 1 <= snd sz /\ fst sz * snd sz <= MAX_IMAGE_PIXELS.

(** A [float] that is not negative: a zero of either sign, a positive
    finite value, plus infinity, or NaN. *)
Definition sign_ok (f : spec_float) : Prop :=
  match f with
  | S754_finite true _ _ | S754_infinity true => False
  | _ => True
  end.

(** ** A concrete platform and concrete inputs, for running the model *)

Module Demo.

(** Nearest-neighbour sampling, the 8-bit blend [(below * (255 - m) +
    above * m) / 255], an opaque alpha for converted pixels, no failures. *)
#[export] Instance platform : Platform := {|
  convert_pixel := fun _ _ p => let '(r, g, b, _) := p in (r, g, b, 255);
  resample := fun im sz xy =>
    getpixel im (fst xy * fst (size im) / fst sz, snd xy * snd (size im) / snd sz);
  blend := fun m below above => (below * (255 - m) + above * m) / 255;
  fault := fun _ => None;
  failed_write := fun _ fs => fs;
  float_repr := fun _ => "<float>"
|}.

(** An opaque red square. *)
Definition square (n : Z) : image :=
  {| mode := "RGBA"; size := (n, n); getpixel := fun _ => (255, 0, 0, 255) |}.

(** An opaque grey rectangle without an alpha channel. *)
Definition grey (w h : Z) : image :=
  {| mode := "L"; size := (w, h); getpixel := fun _ => (128, 128, 128, 255) |}.

Definition world_with (path : string) (im : image) : world :=
  {| files := {[ path := Encoded im ]}; stdout := []; stderr := []; calls := [] |}.

Definition empty_world : world :=
  {| files := ∅; stdout := []; stderr := []; calls := [] |}.

(** A 100x200 file at [icon.png], a 9x9 and a 16x16 one, a 10x10 one, and
    the 512x512 icon at the path that the entry point reads. *)
Definition grey_world : world := world_with "icon.png" (grey 100 200).
Definition nine_world : world := world_with "icon.png" (square 9).
Definition sixteen_world : world := world_with "icon.png" (square 16).
Definition ten_world : world := world_with "icon.png" (square 10).
Definition hundred_world : world := world_with "icon.png" (square 100).
Definition icon_world : world := world_with "assets/icon/gitvault.png" (grey 512 512).

(** The double that Python writes [11.11111111111111], the value of
    [100 / 9]. *)
Definition hundred_ninths : Py.number :=
  Py.Float (S754_finite false 6254999482459022 (-49)).

(** Two percentages that are not negative and that no run survives: the
    [int] [10 ** 400] and the [float] [inf]. *)
Definition googol_power : Py.number := Py.Int (10 ^ 400).
Definition plus_infinity : Py.number := Py.Float (S754_infinity false).

(** The world after padding the 16x16 file once by [hundred_ninths]. *)
Definition once_world : world :=
  snd (add_padding "icon.png" "once.png" hundred_ninths sixteen_world).

End Demo.

(** * Proofs *)

(** ** The double nearest to [n / 100] *)

Lemma digits2_pos_size p : digits2_pos p = Pos.size p.
Proof. induction p as [p IH|p IH|]; simpl; congruence. Qed.

Lemma Zdigits2_log2 p : Zdigits2 (Z.pos p) = Z.log2 (Z.pos p) + 1.
Proof.
  unfold Zdigits2. rewrite digits2_pos_size.
  destruct p; simpl; lia.
Qed.

Lemma Zdigits2_bounds p : 2 ^ (Zdigits2 (Z.pos p) - 1) <= Z.pos p < 2 ^ Zdigits2 (Z.pos p).
Proof.
  rewrite Zdigits2_log2.
  replace (Z.log2 (Z.pos p) + 1 - 1) with (Z.log2 (Z.pos p)) by lia.
  replace (Z.log2 (Z.pos p) + 1) with (Z.succ (Z.log2 (Z.pos p))) by lia.
  apply Z.log2_spec. lia.
Qed.

Lemma Zdigits2_unique m d : 0 < d -> 2 ^ (d - 1) <= m < 2 ^ d -> Zdigits2 m = d.
Proof.
  intros Hd [Hlo Hhi].
  assert (0 < 2 ^ (d - 1)) by (apply Z.pow_pos_nonneg; lia).
  assert (0 < m) by lia.
  destruct m as [|p|p]; try lia.
  rewrite Zdigits2_log2.
  assert (Z.log2 (Z.pos p) = d - 1) as ->; [|lia].
  apply Z.log2_unique; [lia|].
  replace (Z.succ (d - 1)) with d by lia. lia.
Qed.

Lemma loc_of_shr_record_of_loc m l :
  loc_of_shr_record (shr_record_of_loc m l) = l.
Proof. destruct l as [|[]]; reflexivity. Qed.

Lemma shr_m_record_of_loc m l : shr_m (shr_record_of_loc m l) = m.
Proof. destruct l as [|[]]; reflexivity. Qed.

(** A mantissa of exactly 53 bits is kept as it is. *)
Lemma shr_fexp_53 m e l :
  Zdigits2 m = 53 -> -1074 <= e ->
  shr_fexp 53 1024 m e l = (shr_record_of_loc m l, e).
Proof.
  intros Hd He. unfold shr_fexp, fexp, emin. rewrite Hd.
  replace (Z.max (53 + e - 53) (3 - 1024 - 53) - e) with 0 by lia.
  reflexivity.
Qed.

(** A mantissa of 54 bits loses its last bit. *)
Lemma shr_fexp_54 m e l :
  Zdigits2 m = 54 -> -1075 <= e ->
  shr_fexp 53 1024 m e l = (shr_1 (shr_record_of_loc m l), e + 1).
Proof.
  intros Hd He. unfold shr_fexp, fexp, emin. rewrite Hd.
  replace (Z.max (54 + e - 53) (3 - 1024 - 53) - e) with 1 by lia.
  reflexivity.
Qed.

Lemma round_nearest_even_range m l :
  m <= round_nearest_even m l <= m + 1.
Proof. destruct l as [|[]]; simpl; try destruct (Z.even m); lia. Qed.

(** The last step of [binary_round_aux] on a rounded mantissa of 53 bits, or
    on [2^53]: the result is finite and has the value [m * 2^e]. *)
Lemma round_aux_finish s m e :
  2 ^ 52 <= m <= 2 ^ 53 -> -1074 <= e < 0 ->
  exists m' e',
    (let '(mrs, e2) := shr_fexp 53 1024 m e loc_Exact in
     match shr_m mrs with
     | Z0 => S754_zero s
     | Z.pos p => if e2 <=? 1024 - 53 then S754_finite s p e2 else S754_infinity s
     | Z.neg _ => S754_nan
     end) = S754_finite s m' e' /\
    Z.shiftl (Z.pos m') e' = m / 2 ^ (- e).
Proof.
  intros Hm He.
  change (2 ^ 52) with 4503599627370496 in Hm.
  change (2 ^ 53) with 9007199254740992 in Hm.
  destruct (Z.eq_dec m 9007199254740992) as [->|Hne].
  - rewrite shr_fexp_54 by (reflexivity || lia).
    cbn [shr_record_of_loc shr_1 shr_m orb].
    destruct (e + 1 <=? 1024 - 53) eqn:Hle; [|lia].
    eexists _, _. split; [reflexivity|].
    rewrite Z.shiftl_div_pow2 by lia.
    replace (- e) with (1 + - (e + 1)) by lia.
    rewrite Z.pow_add_r by lia.
    change 9007199254740992 with (2 ^ 1 * 4503599627370496).
    rewrite Z.div_mul_cancel_l; [reflexivity| |lia].
    apply Z.pow_nonzero; lia.
  - rewrite shr_fexp_53; [|apply Zdigits2_unique; [lia|]|lia].
    2:{ change (2 ^ (53 - 1)) with 4503599627370496.
        change (2 ^ 53) with 9007199254740992. lia. }
    cbn [shr_record_of_loc shr_m].
    destruct m as [|p|p]; try lia.
    destruct (e <=? 1024 - 53) eqn:Hle; [|lia].
    eexists _, _. split; [reflexivity|].
    rewrite Z.shiftl_div_pow2 by lia. reflexivity.
Qed.

(** Rounding a quotient by 100 with remainder [r]: the mantissa moves up by
    at most one, and only when the remainder is at least one half. *)
Lemma round_quotient_100 q r :
  0 <= r < 100 ->
  let m := round_nearest_even q (new_location 100 r) in
  q <= m /\ 200 * m <= 200 * q + 2 * r + 100.
Proof.
  intros Hr m. subst m. unfold new_location, new_location_even.
  change (Z.even 100) with true. cbv beta iota.
  destruct (r =? 0) eqn:H0; cbn [round_nearest_even]; [lia|].
  apply Z.eqb_neq in H0.
  destruct (2 * r ?= 100) eqn:Hc; cbn [round_nearest_even].
  - apply Z.compare_eq in Hc. destruct (Z.even q); lia.
  - lia.
  - apply Z.compare_gt_iff in Hc. lia.
Qed.

(** The same after the quotient lost its last bit. *)
Lemma round_halved_quotient_100 q r :
  0 < q -> 0 <= r < 100 ->
  let mrs := shr_1 (shr_record_of_loc q (new_location 100 r)) in
  let m := round_nearest_even (shr_m mrs) (loc_of_shr_record mrs) in
  q <= 2 * m + 1 /\ 200 * m <= 100 * q + r + 100.
Proof.
  intros Hq Hr mrs m. subst m mrs. unfold new_location, new_location_even.
  change (Z.even 100) with true. cbv beta iota.
  destruct q as [|p|p]; try lia.
  destruct (r =? 0) eqn:H0.
  - apply Z.eqb_eq in H0. subst r.
    destruct p;
      cbn [shr_record_of_loc shr_1 shr_m loc_of_shr_record orb round_nearest_even];
      try destruct (Z.even _); lia.
  - apply Z.eqb_neq in H0.
    destruct (2 * r ?= 100); destruct p;
      cbn [shr_record_of_loc shr_1 shr_m loc_of_shr_record orb round_nearest_even];
      try destruct (Z.even _); lia.
Qed.

Lemma div_by_pow2_unique n Q R P m :
  n = 100 * Q + R -> 0 <= R < 100 -> 64 <= P ->
  Q * P <= m -> 100 * m <= n * P + 50 -> m / P = Q.
Proof.
  intros -> HR HP Hlo Hhi.
  symmetry. apply (Z.div_unique m P Q (m - Q * P)); [|lia].
  left. nia.
Qed.

(** The scaled integer division that [SFdiv] performs for [n / 100]. *)
Lemma SFdiv_core_100 (n : positive) :
  let s := 60 - Zdigits2 (Z.pos n) in
  Zdigits2 (Z.pos n) <= 59 ->
  SFdiv_core_binary 53 1024 (Z.pos n) 0 100 0 =
    (Z.pos n * 2 ^ s / 100, - s, new_location 100 ((Z.pos n * 2 ^ s) mod 100)).
Proof.
  intros s Hd. subst s.
  assert (0 < Zdigits2 (Z.pos n)) by (simpl; lia).
  unfold SFdiv_core_binary. change (Zdigits2 100) with 7.
  unfold fexp, emin. cbv zeta.
  replace (Z.min (Z.max (Zdigits2 (Z.pos n) + 0 - (7 + 0) - 53) (3 - 1024 - 53)) (0 - 0))
    with (- (60 - Zdigits2 (Z.pos n))) by lia.
  replace (0 - 0 - - (60 - Zdigits2 (Z.pos n))) with (60 - Zdigits2 (Z.pos n)) by lia.
  destruct (60 - Zdigits2 (Z.pos n)) as [|k|k] eqn:Hs; try lia.
  rewrite Z.shiftl_mul_pow2 by lia.
  unfold Z.div, Z.modulo.
  destruct (Z.div_eucl (Z.pos n * 2 ^ Z.pos k) 100). reflexivity.
Qed.

(** Dividing an [int] below [100 * 2^47] by 100 and truncating the double
    gives the integer quotient. *)
Lemma SFdiv_100_trunc (n : positive) :
  Z.pos n < 100 * 2 ^ 47 ->
  exists m e,
    SFdiv 53 1024 (S754_finite false n 0) (S754_finite false 100 0)
      = S754_finite false m e /\
    Z.shiftl (Z.pos m) e = Z.pos n / 100.
Proof.
  intros Hn.
  pose proof (Zdigits2_bounds n) as Hb.
  set (d := Zdigits2 (Z.pos n)) in *.
  assert (0 < d) by (subst d; simpl; lia).
  assert (d <= 54) as Hd54.
  { destruct (Z_le_gt_dec d 54) as [|Hgt]; [assumption|exfalso].
    assert (2 ^ 54 <= 2 ^ (d - 1)) by (apply Z.pow_le_mono_r; lia).
    change (2 ^ 47) with 140737488355328 in Hn.
    change (2 ^ 54) with 18014398509481984 in *. lia. }
  set (s := 60 - d).
  assert (2 ^ 59 <= Z.pos n * 2 ^ s < 2 ^ 60) as Hscaled.
  { assert (0 < 2 ^ s) by (apply Z.pow_pos_nonneg; lia).
    replace 59 with (d - 1 + s) by lia.
    replace 60 with (d + s) by lia.
    rewrite !Z.pow_add_r by lia. nia. }
  change (2 ^ 59) with 576460752303423488 in Hscaled.
  change (2 ^ 60) with 1152921504606846976 in Hscaled.
  pose proof (Z.div_mod (Z.pos n * 2 ^ s) 100 ltac:(lia)) as Hqr.
  pose proof (Z.mod_pos_bound (Z.pos n * 2 ^ s) 100 ltac:(lia)) as Hr.
  pose proof (Z.div_mod (Z.pos n) 100 ltac:(lia)) as HQR.
  pose proof (Z.mod_pos_bound (Z.pos n) 100 ltac:(lia)) as HR.
  unfold SFdiv. cbn [xorb].
  rewrite SFdiv_core_100 by (fold d; lia). fold d. fold s.
  set (q := Z.pos n * 2 ^ s / 100) in *.
  set (r := (Z.pos n * 2 ^ s) mod 100) in *.
  set (Q := Z.pos n / 100) in *.
  set (R := Z.pos n mod 100) in *.
  assert (Q * 2 ^ s <= q) as HQq.
  { subst q. apply Z.div_le_lower_bound; [lia|]. nia. }
  unfold binary_round_aux.
  destruct (Z_lt_le_dec q (2 ^ 53)) as [Hq53|Hq54].
  - (* the quotient has 53 bits *)
    change (2 ^ 53) with 9007199254740992 in Hq53.
    rewrite shr_fexp_53; [|apply Zdigits2_unique; [lia|]|lia].
    2:{ change (2 ^ (53 - 1)) with 4503599627370496.
        change (2 ^ 53) with 9007199254740992. lia. }
    rewrite shr_m_record_of_loc, loc_of_shr_record_of_loc.
    destruct (round_quotient_100 q r Hr) as [Hlo Hhi].
    set (m := round_nearest_even q (new_location 100 r)) in *.
    destruct (round_aux_finish false m (- s)) as (m' & e' & -> & Hval).
    { change (2 ^ 52) with 4503599627370496.
      change (2 ^ 53) with 9007199254740992. lia. }
    { lia. }
    exists m', e'. split; [reflexivity|].
    rewrite Hval. replace (- - s) with s by lia.
    assert (64 <= 2 ^ s).
    { change 64 with (2 ^ 6). apply Z.pow_le_mono_r; lia. }
    apply (div_by_pow2_unique (Z.pos n) Q R); try lia.
  - (* the quotient has 54 bits and loses one *)
    change (2 ^ 53) with 9007199254740992 in Hq54.
    assert (7 <= s) as Hs7.
    { destruct (Z_le_gt_dec 7 s) as [|Hlt]; [assumption|exfalso].
      assert (s = 6) as Hs6 by lia. rewrite Hs6 in *.
      change (2 ^ 47) with 140737488355328 in Hn.
      change (2 ^ 6) with 64 in *. lia. }
    rewrite shr_fexp_54; [|apply Zdigits2_unique; [lia|]|lia].
    2:{ change (2 ^ (54 - 1)) with 9007199254740992.
        change (2 ^ 54) with 18014398509481984. lia. }
    destruct (round_halved_quotient_100 q r ltac:(lia) Hr) as [Hlo Hhi].
    set (mrs := shr_1 (shr_record_of_loc q (new_location 100 r))) in *.
    set (m := round_nearest_even (shr_m mrs) (loc_of_shr_record mrs)) in *.
    destruct (round_aux_finish false m (- s + 1)) as (m' & e' & -> & Hval).
    { change (2 ^ 52) with 4503599627370496.
      change (2 ^ 53) with 9007199254740992. lia. }
    { lia. }
    exists m', e'. split; [reflexivity|].
    rewrite Hval. replace (- (- s + 1)) with (s - 1) by lia.
    assert (64 <= 2 ^ (s - 1)).
    { change 64 with (2 ^ 6). apply Z.pow_le_mono_r; lia. }
    assert (2 ^ s = 2 * 2 ^ (s - 1)) as HP.
    { replace s with (1 + (s - 1)) at 1 by lia. rewrite Z.pow_add_r by lia. reflexivity. }
    rewrite HP in *.
    apply (div_by_pow2_unique (Z.pos n) Q R); try lia.
Qed.

Lemma int_truediv_100 a :
  0 <= a < 100 * 2 ^ 47 ->
  Py.bind (Py.truediv (Py.Int a) (Py.Int 100)) Py.int = Py.ret (a / 100).
Proof.
  intros [Ha Hlt]. unfold Py.truediv, Py.long_true_divide.
  destruct a as [|n|n]; [reflexivity| |lia].
  change (Z.pos n <? 0) with false. change (100 <? 0) with false.
  change (Z.to_pos (Z.abs (Z.pos n))) with n.
  change (Z.to_pos (Z.abs 100)) with 100%positive.
  destruct (SFdiv_100_trunc n Hlt) as (m & e & -> & Hval).
  cbn [Py.bind Py.ret Py.int Py.float_trunc cond_Zopp]. unfold Py.ret.
  now rewrite Hval.
Qed.

(** ** Signs *)

Lemma binary_round_aux_sign_ok m e l :
  sign_ok (binary_round_aux 53 1024 false m e l).
Proof.
  unfold binary_round_aux.
  destruct (shr_fexp 53 1024 m e l) as [mrs e'].
  destruct (shr_fexp 53 1024 _ e' loc_Exact) as [mrs' e''].
  destruct (shr_m mrs'); [exact I| |exact I].
  destruct (e'' <=? 1024 - 53); exact I.
Qed.

Lemma float_of_int_sign_ok z f :
  0 <= z -> Py.float_of_int z = inr f -> sign_ok f.
Proof.
  intros Hz. unfold Py.float_of_int, binary_normalize.
  destruct z as [|n|n]; [|  |lia].
  - intros [= <-]. exact I.
  - unfold binary_round.
    destruct (shl_align n 0 _) as [mz ez].
    pose proof (binary_round_aux_sign_ok (Z.pos mz) ez loc_Exact) as Hs.
    destruct (binary_round_aux 53 1024 false (Z.pos mz) ez loc_Exact);
      intros [= <-]; exact Hs.
Qed.

Lemma SFmul_sign_ok x y : sign_ok x -> sign_ok y -> sign_ok (SFmul 53 1024 x y).
Proof.
  destruct x as [[]|[]| |[] mx ex], y as [[]|[]| |[] my ey];
    cbn [sign_ok SFmul xorb]; try tauto; intros _ _;
    apply binary_round_aux_sign_ok.
Qed.

Lemma SFdiv_sign_ok x my ey :
  sign_ok x -> sign_ok (SFdiv 53 1024 x (S754_finite false my ey)).
Proof.
  destruct x as [[]|[]| |[] mx ex];
    cbn [sign_ok SFdiv xorb]; try tauto; intros _;
    match goal with
    | |- context [SFdiv_core_binary ?a ?b ?c ?d ?e ?f] =>
        destruct (SFdiv_core_binary a b c d e f) as [[mz ez] lz]
    end;
    apply binary_round_aux_sign_ok.
Qed.

Lemma float_trunc_nonneg f z : sign_ok f -> Py.float_trunc f = inr z -> 0 <= z.
Proof.
  destruct f as [s|s| |[] m e]; cbn [sign_ok Py.float_trunc]; try tauto;
    try discriminate; intros _ [= <-]; [lia|].
  cbn [cond_Zopp]. apply Z.shiftl_nonneg. lia.
Qed.

Lemma nonneg_float_sign_ok f : SFleb (S754_zero false) f = true -> sign_ok f.
Proof. destruct f as [s|[]| |[] m e]; cbn; (discriminate || tauto). Qed.

Lemma float_100 : Py.float_of_int 100 = inr (S754_finite false 7036874417766400 (-46)).
Proof. vm_compute. reflexivity. Qed.

(** A non-negative dimension and a non-negative percentage give a
    non-negative padding, whenever the expression has a value. *)
Lemma padding_of_nonneg old p px :
  0 <= old -> Py.nonneg p -> padding_of old p = inr px -> 0 <= px.
Proof.
  intros Hold Hp. unfold padding_of, int_, over, times, lit, var.
  cbn [Py.bind Py.ret].
  destruct p as [z|f]; cbn [Py.mul Py.nonneg] in *.
  - cbn [Py.bind Py.ret Py.truediv]. unfold Py.long_true_divide.
    assert (0 <= old * z) as Ha by lia.
    destruct (old * z) as [|n|n]; [|  |lia].
    + cbn. intros [= <-]. lia.
    + change (Z.pos n <? 0) with false. change (100 <? 0) with false.
      pose proof (SFdiv_sign_ok (S754_finite false (Z.to_pos (Z.abs (Z.pos n))) 0)
                    (Z.to_pos (Z.abs 100)) 0 I) as Hs.
      destruct (SFdiv 53 1024 _ _) as [s|s| |s m e]; cbn [Py.bind Py.ret Py.int];
        try discriminate; intros Hv; exact (float_trunc_nonneg _ _ Hs Hv).
  - destruct (Py.float_of_int old) as [e|x] eqn:Hx; [discriminate|].
    cbn [Py.bind Py.ret Py.truediv]. rewrite float_100. cbn [Py.bind Py.ret Py.float_div].
    intros Hv. apply (float_trunc_nonneg (SFdiv 53 1024 (SFmul 53 1024 x f)
                                   (S754_finite false 7036874417766400 (-46)))).
    + apply SFdiv_sign_ok.
      apply SFmul_sign_ok; [eapply float_of_int_sign_ok; eassumption|].
      now apply nonneg_float_sign_ok.
    + exact Hv.
Qed.

(** A percentage equal to zero gives no padding, whenever the expression
    has a value. *)
Lemma padding_of_zero old p px :
  Py.is_zero p -> padding_of old p = inr px -> px = 0.
Proof.
  unfold padding_of, int_, over, times, lit, var. cbn [Py.bind Py.ret].
  destruct p as [z|f]; cbn [Py.mul Py.is_zero].
  - intros ->. rewrite Z.mul_0_r. cbn. unfold Py.ret. congruence.
  - intros Hz. destruct (Py.float_of_int old) as [e|x]; [discriminate|].
    cbn [Py.bind Py.ret Py.truediv]. rewrite float_100. cbn [Py.bind Py.ret Py.float_div].
    destruct f as [s|s| |s m e]; try discriminate Hz.
    + destruct x as [sx|sx| |sx mx ex]; cbn; unfold Py.ret, Py.raise; congruence.
    + destruct s; discriminate Hz.
    + destruct s; discriminate Hz.
Qed.

Lemma padding_of_int_zero old : padding_of old (Py.Int 0) = inr 0.
Proof.
  unfold padding_of, int_, over, times, lit, var. cbn [Py.bind Py.ret Py.mul].
  rewrite Z.mul_0_r. reflexivity.
Qed.

(** ** Runs of [add_padding] *)

Ltac unfold_run :=
  cbv [add_padding Image.open Image.convert Image.new Image.resize
       Image.paste Image.save mbind mret mraise lift trace guard print];
  cbn [files stdout stderr calls fst snd].

Ltac split_run H :=
  repeat (cbn [files stdout stderr calls fst snd] in H;
    match type of H with
    | context [match fault ?c with _ => _ end] => destruct (fault c) eqn:?
    | context [match int_ ?x with _ => _ end] => destruct (int_ x) eqn:?
    | context [match size ?i with _ => _ end] => destruct (size i) eqn:?
    | context [if ?b then _ else _] => destruct b eqn:?
    | (inl _, _) = (inr _, _) => discriminate H
    | (inr _, _) = (inl _, _) => discriminate H
    end).

Section Run.
Context `{Platform}.
#[local] Arguments times : simpl never.
#[local] Arguments over : simpl never.
#[local] Arguments int_ : simpl never.


Lemma as_rgba_size img : size (as_rgba img) = size img.
Proof. unfold as_rgba. destruct (negb _); reflexivity. Qed.

Lemma add_padding_inv inp outp p w w' :
  add_padding inp outp p w = (inr tt, w') ->
  exists img0 px py,
    files w !! inp = Some (Encoded img0) /\
    padding_of (fst (size (as_rgba img0))) p = inr px /\
    padding_of (snd (size (as_rgba img0))) p = inr py /\
    0 <= fst (size (as_rgba img0)) + 2 * px /\
    0 <= snd (size (as_rgba img0)) + 2 * py /\
    files w' = <[outp := Encoded (padded (as_rgba img0) px py)]> (files w) /\
    stderr w' = stderr w.
Proof.
  unfold padding_of, padded, as_rgba. unfold_run.
  destruct (files w !! inp) as [[img0|]|] eqn:Hin; try (intros; discriminate).
  intros Hrun. exists img0.
  split_run Hrun.
  all: injection Hrun as <-.
  all: repeat match goal with
         | E : size _ = _ |- _ => rewrite E; clear E
         | E : (_ || _) = false |- _ =>
             apply orb_false_elim in E as [?%Z.ltb_ge ?%Z.ltb_ge]
         end.
  all: cbn [fst snd files stderr].
  all: eexists _, _; repeat split; (eassumption || reflexivity).
Qed.

Lemma add_padding_run inp outp p w img0 px py :
  files w !! inp = Some (Encoded img0) ->
  padding_of (fst (size (as_rgba img0))) p = inr px ->
  padding_of (snd (size (as_rgba img0))) p = inr py ->
  0 <= fst (size (as_rgba img0)) + 2 * px ->
  0 <= snd (size (as_rgba img0)) + 2 * py ->
  (forall c, fault c = None) ->
  exists w',
    add_padding inp outp p w = (inr tt, w') /\
    files w' = <[outp := Encoded (padded (as_rgba img0) px py)]> (files w) /\
    stderr w' = stderr w.
Proof.
  unfold padding_of, padded, as_rgba. unfold_run.
  intros Hin Hpx Hpy Hx Hy Hok. rewrite Hin.
  destruct (negb (String.eqb (mode img0) "RGBA")); rewrite ?Hok;
    cbn [files stdout stderr calls fst snd];
    match goal with
    | |- context [match size ?i with _ => _ end] => destruct (size i) eqn:Hsize
    end;
    cbn [fst snd] in *; rewrite Hpx, Hpy;
    cbn [files stdout stderr calls fst snd];
    (rewrite (proj2 (orb_false_iff _ _)) by (split; apply Z.ltb_ge; assumption));
    rewrite !Hok; cbn [files stdout stderr calls fst snd];
    eexists; repeat split; reflexivity.
Qed.


(** Every call of a run, whatever its outcome: a resize asks for the size
    the image already has, a canvas has the size computed from the two
    paddings, and nothing is printed unless the run succeeds. *)
Lemma add_padding_trace inp outp p w r w' :
  add_padding inp outp p w = (r, w') ->
  exists l,
    calls w' = calls w ++ l /\
    stderr w' = stderr w /\
    (forall e, r = inl e -> stdout w' = stdout w) /\
    (r = inr tt -> exists sz, CResize sz sz ∈ l) /\
    (forall from to, CResize from to ∈ l -> to = from) /\
    (forall md sz, CNew md sz ∈ l ->
       exists img px py,
         files w !! inp = Some (Encoded img) /\
         padding_of (fst (size (as_rgba img))) p = inr px /\
         padding_of (snd (size (as_rgba img))) p = inr py /\
         sz = (fst (size (as_rgba img)) + 2 * px, snd (size (as_rgba img)) + 2 * py)).
Proof.
  unfold padding_of. unfold_run.
  destruct (files w !! inp) as [[img0|]|] eqn:Hin; intros Hrun.
  all: split_run Hrun.
  all: injection Hrun as <- <-; cbn [files stdout stderr calls].
  all: rewrite <- ?app_assoc; cbn [app].
  all: repeat match goal with
         | |- context [?a + 2 * ?b - 2 * ?b] =>
             replace (a + 2 * b - 2 * b) with a by lia
         end.
  all: eexists; split; [reflexivity|]; split; [reflexivity|].
  all: split; [intros ? ?; (reflexivity || discriminate)|].
  all: split; [intros ?; try discriminate; eexists; rewrite !elem_of_cons; eauto 10|].
  all: split; [intros from to Hel|intros md sz Hel].
  all: repeat (apply elem_of_cons in Hel as [Hel|Hel]; try discriminate Hel).
  all: try (apply elem_of_nil in Hel; contradiction).
  all: injection Hel as -> ->; try reflexivity.
  all: eexists _, _, _; split; [reflexivity|].
  all: rewrite as_rgba_size; cbn [Image.converted size] in *.
  all: match goal with E : size _ = _ |- _ => rewrite E end; cbn [fst snd].
  all: repeat split; (eassumption || reflexivity).
Qed.

End Run.

(** ** The padding of an integer percentage *)

Lemma padding_of_int old z :
  0 <= old * z < 100 * 2 ^ 47 ->
  padding_of old (Py.Int z) = inr (old * z / 100).
Proof.
  intros Hrange. unfold padding_of, int_, over, times, lit, var.
  cbn [Py.bind Py.ret Py.mul].
  exact (int_truediv_100 (old * z) Hrange).
Qed.

(** A run on an image of size [(W, H)] with an integer percentage in range
    succeeds and stores a canvas of the size given by the floor formula. *)
Lemma add_padding_int_run {plat : Platform} inp outp z w img W H :
  files w !! inp = Some (Encoded img) ->
  size img = (W, H) ->
  0 <= W -> 0 <= H -> 0 <= z ->
  W * z < 100 * 2 ^ 47 -> H * z < 100 * 2 ^ 47 ->
  (forall c, fault c = None) ->
  exists w' out,
    add_padding inp outp (Py.Int z) w = (inr tt, w') /\
    files w' = <[outp := Encoded out]> (files w) /\
    mode out = "RGBA" /\
    size out = (W + 2 * (W * z / 100), H + 2 * (H * z / 100)).
Proof.
  intros Hin Hsize HW HH Hz HWz HHz Hok.
  assert (0 <= W * z / 100) by (apply Z.div_pos; lia).
  assert (0 <= H * z / 100) by (apply Z.div_pos; lia).
  destruct (add_padding_run inp outp (Py.Int z) w img (W * z / 100) (H * z / 100))
    as (w' & Hrun & Hfiles & _); try assumption.
  - rewrite as_rgba_size, Hsize. apply padding_of_int. cbn [fst]. lia.
  - rewrite as_rgba_size, Hsize. apply padding_of_int. cbn [snd]. lia.
  - rewrite as_rgba_size, Hsize. cbn [fst]. lia.
  - rewrite as_rgba_size, Hsize. cbn [snd]. lia.
  - exists w', (padded (as_rgba img) (W * z / 100) (H * z / 100)).
    repeat split; try assumption.
    + unfold padded. destruct (size (as_rgba img)). reflexivity.
    + unfold padded. rewrite as_rgba_size, Hsize. reflexivity.
Qed.

(** Each side of a canvas that fits is within the pixel limit. *)
Lemma canvas_fits_side sz :
  canvas_fits sz -> fst sz <= MAX_IMAGE_PIXELS /\ snd sz <= MAX_IMAGE_PIXELS.
Proof.
  unfold canvas_fits. change MAX_IMAGE_PIXELS with 89478485.
  intros (Hx & Hy & Harea). nia.
Qed.

(** A canvas inside one that fits, and with no empty side, fits. *)
Lemma canvas_fits_le sz sz' :
  canvas_fits sz ->
  1 <= fst sz' <= fst sz -> 1 <= snd sz' <= snd sz ->
  canvas_fits sz'.
Proof.
  unfold canvas_fits. intros (Hx & Hy & Harea) Hx' Hy'.
  repeat split; try lia. nia.
Qed.

(** A padding that leaves the side within the pixel limit is far inside
    the range of [padding_of_int]. *)
Lemma canvas_fits_range old z :
  0 <= old -> 0 <= z -> old + 2 * (old * z / 100) <= MAX_IMAGE_PIXELS ->
  old * z < 100 * 2 ^ 47.
Proof.
  change MAX_IMAGE_PIXELS with 89478485. intros Hold Hz Hfit.
  change (100 * 2 ^ 47) with 14073748835532800.
  pose proof (Z.div_mod (old * z) 100 ltac:(lia)) as Hq.
  pose proof (Z.mod_pos_bound (old * z) 100 ltac:(lia)) as Hr.
  lia.
Qed.

(** What a run with an integer percentage stores, when the canvas is one
    that the library allocates and writes. *)
Lemma add_padding_int_stores {plat : Platform} inp outp z w img W H :
  files w !! inp = Some (Encoded img) ->
  size img = (W, H) ->
  1 <= W -> 1 <= H -> 0 <= z ->
  canvas_fits (W + 2 * (W * z / 100), H + 2 * (H * z / 100)) ->
  (forall c, fault c = None) ->
  exists out,
    files (snd (add_padding inp outp (Py.Int z) w)) = <[outp := Encoded out]> (files w) /\
    mode out = "RGBA" /\
    size out = (W + 2 * (W * z / 100), H + 2 * (H * z / 100)).
Proof.
  intros Hin Hsize HW HH Hz Hfit Hok.
  apply canvas_fits_side in Hfit as [HfitW HfitH]. cbn [fst snd] in HfitW, HfitH.
  destruct (add_padding_int_run inp outp z w img W H)
    as (w' & out & Hrun & Hfiles & Hmode & Hout); try assumption; try lia.
  - apply canvas_fits_range; (assumption || lia).
  - apply canvas_fits_range; (assumption || lia).
  - exists out. rewrite Hrun. cbn [snd]. auto.
Qed.

(** ** The model on the scenarios of the specification *)

(** 100x200 at 15 percent: paddings 15 and 30. *)
Example scenario_100x200_at_15 :
  padding_of 100 (Py.Int 15) = inr 15 /\ padding_of 200 (Py.Int 15) = inr 30.
Proof. vm_compute. split; reflexivity. Qed.

(** 1x1 at 50 percent: [int(0.5)] is 0. *)
Example scenario_1x1_at_50 : padding_of 1 (Py.Int 50) = inr 0.
Proof. vm_compute. reflexivity. Qed.

(** The same percentages written as [float]s. *)
Example scenario_float_percent :
  padding_of 512 (Py.Float (S754_finite false 5 2)) = inr 102 /\
  padding_of 200 (Py.Float (S754_finite false 15 0)) = inr 30.
Proof. vm_compute. split; reflexivity. Qed.

(** [100 / 9] is the double [hundred_ninths]; on small operands the
    quotient of two [int]s is the quotient of their doubles. *)
Example hundred_ninths_is_100_over_9 :
  Py.truediv (Py.Int 100) (Py.Int 9) = inr Demo.hundred_ninths /\
  Py.truediv (Py.Float (S754_finite false 7036874417766400 (-46))) (Py.Int 9)
    = inr Demo.hundred_ninths.
Proof. vm_compute. split; reflexivity. Qed.

(** The bound of [padding_of_int] cannot be raised by 100: the quotient of
    [100 * 2^47 + 99] by 100 rounds up to the next integer. *)
Example padding_of_int_bound_is_sharp :
  padding_of 1 (Py.Int (100 * 2 ^ 47 + 99)) = inr (2 ^ 47 + 1) /\
  spec_padding 1 (Py.Int (100 * 2 ^ 47 + 99)) = 2 ^ 47.
Proof. vm_compute. split; reflexivity. Qed.

(** The entry point on the 512x512 icon: status 0, four lines on standard
    output, the padded icon stored. *)
Example main_on_icon :
  fst (@main Demo.platform Demo.icon_world) = 0 /\
  stdout (snd (@main Demo.platform Demo.icon_world)) =
    ["✓ Created padded icon: assets/icon/gitvault_padded.png";
     "  Original size: 512x512";
     "  New size: 716x716";
     "  Padding: 20% (102px horizontal, 102px vertical)"] /\
  stderr (snd (@main Demo.platform Demo.icon_world)) = [] /\
  stored_size (snd (@main Demo.platform Demo.icon_world)) output_file = Some (716, 716).
Proof. vm_compute. repeat split. Qed.

(** * Properties of the script *)

(** C1 (counterexample).  A 9x9 image padded by the percentage
    [11.11111111111111] (a [float], not negative) comes out 11x11: the
    double product [9 * p] rounds up to [100.0], so the script pads by one
    pixel, while the floor of the exact [9 * p / 100] is 0 and the formula
    gives 9x9. *)
Lemma C1_float_percent_counterexample :
  Py.nonneg Demo.hundred_ninths /\
  fst (@add_padding Demo.platform "icon.png" "padded.png" Demo.hundred_ninths
         Demo.nine_world) = inr tt /\
  stored_size
    (snd (@add_padding Demo.platform "icon.png" "padded.png" Demo.hundred_ninths
            Demo.nine_world)) "padded.png" = Some (11, 11) /\
  (9 + 2 * spec_padding 9 Demo.hundred_ninths,
   9 + 2 * spec_padding 9 Demo.hundred_ninths) = (9, 9).
Proof. vm_compute. repeat split. Qed.

(** C1 (amended).  For an input of size [W x H] with no empty side and an
    integer percentage [z >= 0] whose padded canvas fits the library (at
    most [MAX_IMAGE_PIXELS] pixels), a run that meets no failure of the
    environment stores an RGBA image of size
    [(W + 2 * floor (W * z / 100), H + 2 * floor (H * z / 100))], each padding
    computed from its own axis. *)
Theorem C1_output_size_int_percent {plat : Platform} inp outp (z : Z) w img W H :
  files w !! inp = Some (Encoded img) ->
  size img = (W, H) ->
  1 <= W -> 1 <= H -> 0 <= z ->
  canvas_fits (W + 2 * spec_padding W (Py.Int z), H + 2 * spec_padding H (Py.Int z)) ->
  (forall c, fault c = None) ->
  exists out,
    files (snd (add_padding inp outp (Py.Int z) w)) !! outp = Some (Encoded out) /\
    mode out = "RGBA" /\
    size out = (W + 2 * spec_padding W (Py.Int z), H + 2 * spec_padding H (Py.Int z)).
Proof.
  cbn [spec_padding]. intros Hin Hsize HW HH Hz Hfit Hok.
  destruct (add_padding_int_stores inp outp z w img W H) as (out & Hf & Hm & Hs);
    try assumption.
  exists out. repeat split; try assumption.
  rewrite Hf. apply lookup_insert_eq.
Qed.

(** C1 on a concrete input: a 100x200 file and 15 percent. *)
Lemma C1_output_size_int_percent_witness :
  files Demo.grey_world !! "icon.png" = Some (Encoded (Demo.grey 100 200)) /\
  size (Demo.grey 100 200) = (100, 200) /\
  1 <= 100 /\ 1 <= 200 /\ 0 <= 15 /\
  canvas_fits (100 + 2 * spec_padding 100 (Py.Int 15),
               200 + 2 * spec_padding 200 (Py.Int 15)) /\
  (forall c, @fault Demo.platform c = None) /\
  exists out,
    files (snd (@add_padding Demo.platform "icon.png" "padded.png" (Py.Int 15)
                  Demo.grey_world)) !! "padded.png" = Some (Encoded out) /\
    mode out = "RGBA" /\
    size out = (100 + 2 * spec_padding 100 (Py.Int 15),
                200 + 2 * spec_padding 200 (Py.Int 15)).
Proof.
  assert (Hin : files Demo.grey_world !! "icon.png" = Some (Encoded (Demo.grey 100 200)))
    by (vm_compute; reflexivity).
  assert (Hok : forall c, @fault Demo.platform c = None) by reflexivity.
  assert (Hfit : canvas_fits (100 + 2 * spec_padding 100 (Py.Int 15),
                              200 + 2 * spec_padding 200 (Py.Int 15)))
    by (vm_compute; repeat split; discriminate).
  repeat (split; [first [assumption | reflexivity | lia]|]).
  exact (@C1_output_size_int_percent Demo.platform "icon.png" "padded.png" 15
           Demo.grey_world (Demo.grey 100 200) 100 200
           Hin eq_refl ltac:(lia) ltac:(lia) ltac:(lia) Hfit Hok).
Defined.

(** C2 (counterexample).  With the input file missing the process exits
    with status 1, and its one line [Error: ...] is on standard output:
    the handler calls [print] without a [file] argument, and standard
    error stays empty. *)
Lemma C2_error_line_on_stdout_counterexample :
  fst (@main Demo.platform Demo.empty_world) = 1 /\
  stderr (snd (@main Demo.platform Demo.empty_world)) = [] /\
  stdout (snd (@main Demo.platform Demo.empty_world)) =
    ["Error: [Errno 2] No such file or directory: 'assets/icon/gitvault.png'"].
Proof. vm_compute. repeat split. Qed.

(** C2 (amended).  When [add_padding] raises [e], the process exits with
    status 1 and has printed exactly one line, [Error: ] followed by the
    text of [e], on standard output, and nothing on standard error; when
    it returns, the process exits with status 0 and has written nothing
    on standard error. *)
Theorem C2_exit_status_and_error_line {plat : Platform} (w : world) :
  match add_padding input_file output_file (Py.Int 20) w with
  | (inl e, w1) =>
      main w = (1, World (files w1) (stdout w ++ ["Error: " +:+ Py.str e])
                     (stderr w) (calls w1))
  | (inr _, w1) => main w = (0, w1) /\ stderr w1 = stderr w
  end.
Proof.
  unfold main.
  destruct (add_padding input_file output_file (Py.Int 20) w) as [r w1] eqn:Hrun.
  destruct (add_padding_trace _ _ _ _ _ _ Hrun) as (l & _ & Herr & Hout & _).
  destruct r as [e|u].
  - unfold print. rewrite (Hout e eq_refl), Herr. reflexivity.
  - split; [reflexivity|exact Herr].
Qed.

(** C3.  For a percentage above zero, every pixel of the stored canvas
    that is closer than [padding_x] to the left or right edge, or closer
    than [padding_y] to the top or bottom edge, has alpha 0; the paddings
    are the ones that the script computed. *)
Theorem C3_border_is_transparent {plat : Platform} inp outp p w w' :
  Py.positive p ->
  add_padding inp outp p w = (inr tt, w') ->
  exists img padding_x padding_y out,
    files w !! inp = Some (Encoded img) /\
    padding_of (fst (size (as_rgba img))) p = inr padding_x /\
    padding_of (snd (size (as_rgba img))) p = inr padding_y /\
    files w' !! outp = Some (Encoded out) /\
    forall x y,
      0 <= x < fst (size out) -> 0 <= y < snd (size out) ->
      x < padding_x \/ fst (size out) - 1 - x < padding_x \/
      y < padding_y \/ snd (size out) - 1 - y < padding_y ->
      alpha (getpixel out (x, y)) = 0.
Proof.
  intros _ Hrun.
  destruct (add_padding_inv _ _ _ _ _ Hrun)
    as (img & px & py & Hin & Hpx & Hpy & _ & _ & Hfiles & _).
  exists img, px, py, (padded (as_rgba img) px py).
  repeat split; try assumption.
  - rewrite Hfiles. apply lookup_insert_eq.
  - unfold padded. destruct (size (as_rgba img)) as [old_width old_height].
    cbn [Image.pasted Image.blank Image.resized size getpixel fst snd].
    intros x y Hx Hy Hborder.
    assert (Image.inside (px, py)
              (old_width + 2 * px - 2 * px, old_height + 2 * py - 2 * py) (x, y)
            = false) as ->; [|reflexivity].
    unfold Image.inside. cbn [fst snd].
    rewrite !andb_false_iff, !Z.leb_gt, !Z.ltb_ge. lia.
Qed.

(** C3 on a concrete input: a 10x10 file and 20 percent. *)
Lemma C3_border_is_transparent_witness :
  Py.positive (Py.Int 20) /\
  @add_padding Demo.platform "icon.png" "padded.png" (Py.Int 20) Demo.ten_world
    = (inr tt, snd (@add_padding Demo.platform "icon.png" "padded.png" (Py.Int 20)
                      Demo.ten_world)) /\
  exists img padding_x padding_y out,
    files Demo.ten_world !! "icon.png" = Some (Encoded img) /\
    @padding_of (fst (size (@as_rgba Demo.platform img))) (Py.Int 20) = inr padding_x /\
    @padding_of (snd (size (@as_rgba Demo.platform img))) (Py.Int 20) = inr padding_y /\
    files (snd (@add_padding Demo.platform "icon.png" "padded.png" (Py.Int 20)
                  Demo.ten_world)) !! "padded.png" = Some (Encoded out) /\
    forall x y,
      0 <= x < fst (size out) -> 0 <= y < snd (size out) ->
      x < padding_x \/ fst (size out) - 1 - x < padding_x \/
      y < padding_y \/ snd (size out) - 1 - y < padding_y ->
      alpha (getpixel out (x, y)) = 0.
Proof.
  assert (Hp : Py.positive (Py.Int 20)) by (simpl; lia).
  assert (Hrun : @add_padding Demo.platform "icon.png" "padded.png" (Py.Int 20)
                   Demo.ten_world
                 = (inr tt, snd (@add_padding Demo.platform "icon.png" "padded.png"
                                   (Py.Int 20) Demo.ten_world)))
    by (vm_compute; reflexivity).
  split; [exact Hp|]. split; [exact Hrun|].
  exact (@C3_border_is_transparent Demo.platform _ _ _ _ _ Hp Hrun).
Defined.

(** C4.  With a percentage equal to zero every run that returns has stored
    an image of exactly the size of the input, and the pasted content
    covers it from edge to edge: every pixel is the blend of the content
    pixel at the same place over the transparent canvas.  With the integer
    [0] and no failure of the environment the run does return. *)
Theorem C4_zero_percent_keeps_size {plat : Platform} inp outp p w img :
  Py.is_zero p ->
  files w !! inp = Some (Encoded img) ->
  0 <= fst (size img) -> 0 <= snd (size img) ->
  (forall w', add_padding inp outp p w = (inr tt, w') ->
     exists out,
       files w' !! outp = Some (Encoded out) /\
       size out = size img /\
       forall x y,
         0 <= x < fst (size out) -> 0 <= y < snd (size out) ->
         let content := getpixel (Image.resized (as_rgba img) (size img)) (x, y) in
         getpixel out (x, y) = Image.blend_pixel (alpha content) (0, 0, 0, 0) content) /\
  (p = Py.Int 0 -> (forall c, fault c = None) ->
   exists w', add_padding inp outp p w = (inr tt, w')).
Proof.
  intros Hzero Hin HW HH. split.
  - intros w' Hrun.
    destruct (add_padding_inv _ _ _ _ _ Hrun)
      as (img' & px & py & Hin' & Hpx & Hpy & _ & _ & Hfiles & _).
    rewrite Hin in Hin'. injection Hin' as <-.
    apply (padding_of_zero _ _ _ Hzero) in Hpx, Hpy. subst px py.
    exists (padded (as_rgba img) 0 0).
    split; [rewrite Hfiles; apply lookup_insert_eq|].
    unfold padded. rewrite as_rgba_size.
    destruct (size img) as [old_width old_height].
    cbn [Image.pasted Image.blank size getpixel fst snd].
    replace (old_width + 2 * 0 - 2 * 0) with old_width by lia.
    replace (old_height + 2 * 0 - 2 * 0) with old_height by lia.
    replace (old_width + 2 * 0) with old_width by lia.
    replace (old_height + 2 * 0) with old_height by lia.
    split; [reflexivity|].
    intros x y Hx Hy. rewrite !Z.sub_0_r.
    change (size (Image.resized (as_rgba img) (old_width, old_height)))
      with (old_width, old_height).
    assert (Image.inside (0, 0) (old_width, old_height) (x, y) = true) as ->;
      [|reflexivity].
    unfold Image.inside. cbn [fst snd].
    rewrite !andb_true_iff, !Z.leb_le, !Z.ltb_lt. lia.
  - intros -> Hok.
    destruct (add_padding_run inp outp (Py.Int 0) w img 0 0) as (w' & Hrun & _);
      try assumption; try apply padding_of_int_zero;
      try (rewrite as_rgba_size; lia).
    exists w'. exact Hrun.
Qed.

(** C4 on a concrete input: a 100x200 file and 0 percent. *)
Lemma C4_zero_percent_keeps_size_witness :
  Py.is_zero (Py.Int 0) /\
  files Demo.grey_world !! "icon.png" = Some (Encoded (Demo.grey 100 200)) /\
  0 <= fst (size (Demo.grey 100 200)) /\ 0 <= snd (size (Demo.grey 100 200)) /\
  (forall w', @add_padding Demo.platform "icon.png" "padded.png" (Py.Int 0)
                Demo.grey_world = (inr tt, w') ->
     exists out,
       files w' !! "padded.png" = Some (Encoded out) /\
       size out = size (Demo.grey 100 200) /\
       forall x y,
         0 <= x < fst (size out) -> 0 <= y < snd (size out) ->
         let content :=
           getpixel (@Image.resized Demo.platform
                       (@as_rgba Demo.platform (Demo.grey 100 200))
                       (size (Demo.grey 100 200))) (x, y) in
         getpixel out (x, y)
           = @Image.blend_pixel Demo.platform (alpha content) (0, 0, 0, 0) content) /\
  (Py.Int 0 = Py.Int 0 -> (forall c, @fault Demo.platform c = None) ->
   exists w', @add_padding Demo.platform "icon.png" "padded.png" (Py.Int 0)
                Demo.grey_world = (inr tt, w')).
Proof.
  assert (Hin : files Demo.grey_world !! "icon.png" = Some (Encoded (Demo.grey 100 200)))
    by (vm_compute; reflexivity).
  assert (Hz : Py.is_zero (Py.Int 0)) by reflexivity.
  assert (HW : 0 <= fst (size (Demo.grey 100 200))) by (simpl; lia).
  assert (HH : 0 <= snd (size (Demo.grey 100 200))) by (simpl; lia).
  split; [exact Hz|]. split; [exact Hin|]. split; [exact HW|]. split; [exact HH|].
  exact (@C4_zero_percent_keeps_size Demo.platform "icon.png" "padded.png" (Py.Int 0)
           Demo.grey_world (Demo.grey 100 200) Hz Hin HW HH).
Defined.

(** C5.  A 512x512 input padded by 20 percent is stored as a 716x716
    image: each padding is [floor (512 * 20 / 100) = 102]. *)
Theorem C5_512_at_20_is_716 {plat : Platform} inp outp w img :
  files w !! inp = Some (Encoded img) ->
  size img = (512, 512) ->
  (forall c, fault c = None) ->
  padding_of 512 (Py.Int 20) = inr 102 /\
  exists w',
    add_padding inp outp (Py.Int 20) w = (inr tt, w') /\
    stored_size w' outp = Some (716, 716).
Proof.
  intros Hin Hsize Hok. split; [vm_compute; reflexivity|].
  destruct (add_padding_int_run inp outp 20 w img 512 512)
    as (w' & out & Hrun & Hfiles & _ & Hout); try assumption; try lia.
  exists w'. split; [exact Hrun|].
  unfold stored_size. rewrite Hfiles, lookup_insert_eq, Hout. reflexivity.
Qed.

(** C5 on a concrete input: the 512x512 icon at the path of the entry point. *)
Lemma C5_512_at_20_is_716_witness :
  files Demo.icon_world !! input_file = Some (Encoded (Demo.grey 512 512)) /\
  size (Demo.grey 512 512) = (512, 512) /\
  (forall c, @fault Demo.platform c = None) /\
  padding_of 512 (Py.Int 20) = inr 102 /\
  exists w',
    @add_padding Demo.platform input_file output_file (Py.Int 20) Demo.icon_world
      = (inr tt, w') /\
    stored_size w' output_file = Some (716, 716).
Proof.
  assert (Hin : files Demo.icon_world !! input_file = Some (Encoded (Demo.grey 512 512)))
    by (vm_compute; reflexivity).
  assert (Hok : forall c, @fault Demo.platform c = None) by reflexivity.
  split; [exact Hin|]. split; [reflexivity|]. split; [exact Hok|].
  exact (@C5_512_at_20_is_716 Demo.platform input_file output_file Demo.icon_world
           (Demo.grey 512 512) Hin eq_refl Hok).
Defined.

(** C6.  When the input file is missing, or is not an image, the process
    exits with status 1 after printing one [Error:] line; the file store
    is the one it started with, so nothing exists or has changed at the
    output path, and the only library call made is the [open] that
    failed. *)
Theorem C6_missing_input_leaves_output {plat : Platform} (w : world) :
  files w !! input_file = None \/ files w !! input_file = Some Corrupt ->
  exists msg,
    main w = (1, World (files w) (stdout w ++ ["Error: " +:+ msg]) (stderr w)
                   (calls w ++ [COpen input_file])).
Proof.
  unfold main. unfold_run.
  intros [Hin|Hin]; rewrite Hin; eexists; reflexivity.
Qed.

(** C6 on a concrete input: an empty file store. *)
Lemma C6_missing_input_leaves_output_witness :
  (files Demo.empty_world !! input_file = None \/
   files Demo.empty_world !! input_file = Some Corrupt) /\
  exists msg,
    @main Demo.platform Demo.empty_world =
      (1, World (files Demo.empty_world) (stdout Demo.empty_world ++ ["Error: " +:+ msg])
            (stderr Demo.empty_world) (calls Demo.empty_world ++ [COpen input_file])).
Proof.
  assert (Hin : files Demo.empty_world !! input_file = None \/
                files Demo.empty_world !! input_file = Some Corrupt)
    by (left; reflexivity).
  split; [exact Hin|].
  exact (@C6_missing_input_leaves_output Demo.platform Demo.empty_world Hin).
Defined.

(** C7 (counterexample).  A 16x16 image and the percentage
    [11.11111111111111]: the floor of [16 * p / 100] is 1, and the first
    run stores 18x18.  The second run, on that output, stores 22x22: it
    pads by 2 on each side, while [floor (18 * p / 100)] is 1 and the
    formula of the claim gives 20x20. *)
Lemma C7_float_percent_counterexample :
  0 < spec_padding 16 Demo.hundred_ninths /\
  stored_size Demo.once_world "once.png" = Some (18, 18) /\
  stored_size
    (snd (@add_padding Demo.platform "once.png" "twice.png" Demo.hundred_ninths
            Demo.once_world)) "twice.png" = Some (22, 22) /\
  (18 + 2 * spec_padding 18 Demo.hundred_ninths,
   18 + 2 * spec_padding 18 Demo.hundred_ninths) = (20, 20).
Proof. vm_compute. repeat split. Qed.

(** C7 (amended).  For an input with no empty side and an integer
    percentage [z >= 0] with a first padding above zero on some axis, such
    that the twice-padded canvas fits the library (at most
    [MAX_IMAGE_PIXELS] pixels): padding the output of a first run again stores a canvas
    enlarged by [2 * floor (new_dimension * z / 100)] on each axis, a padding
    at least as large as the first one, so the second output is not of
    the size of the first. *)
Theorem C7_second_run_pads_again {plat : Platform} inp mid outp (z : Z) w img W H :
  files w !! inp = Some (Encoded img) ->
  size img = (W, H) ->
  1 <= W -> 1 <= H -> 0 <= z ->
  canvas_fits
    (W + 2 * spec_padding W (Py.Int z)
       + 2 * spec_padding (W + 2 * spec_padding W (Py.Int z)) (Py.Int z),
     H + 2 * spec_padding H (Py.Int z)
       + 2 * spec_padding (H + 2 * spec_padding H (Py.Int z)) (Py.Int z)) ->
  0 < spec_padding W (Py.Int z) \/ 0 < spec_padding H (Py.Int z) ->
  (forall c, fault c = None) ->
  exists once twice,
    files (snd (add_padding inp mid (Py.Int z) w)) !! mid = Some (Encoded once) /\
    files (snd (add_padding mid outp (Py.Int z)
                  (snd (add_padding inp mid (Py.Int z) w)))) !! outp
      = Some (Encoded twice) /\
    size once = (W + 2 * spec_padding W (Py.Int z), H + 2 * spec_padding H (Py.Int z)) /\
    size twice = (fst (size once) + 2 * spec_padding (fst (size once)) (Py.Int z),
                  snd (size once) + 2 * spec_padding (snd (size once)) (Py.Int z)) /\
    spec_padding W (Py.Int z) <= spec_padding (fst (size once)) (Py.Int z) /\
    spec_padding H (Py.Int z) <= spec_padding (snd (size once)) (Py.Int z) /\
    size twice <> size once.
Proof.
  cbn [spec_padding]. intros Hin Hsize HW HH Hz Hfit Hpos Hok.
  assert (0 <= W * z / 100) as HpW by (apply Z.div_pos; lia).
  assert (0 <= H * z / 100) as HpH by (apply Z.div_pos; lia).
  set (W1 := W + 2 * (W * z / 100)) in *.
  set (H1 := H + 2 * (H * z / 100)) in *.
  assert (W * z / 100 <= W1 * z / 100) as HmW by (apply Z.div_le_mono; nia).
  assert (H * z / 100 <= H1 * z / 100) as HmH by (apply Z.div_le_mono; nia).
  assert (0 <= W1 * z / 100) as HqW by (apply Z.div_pos; lia).
  assert (0 <= H1 * z / 100) as HqH by (apply Z.div_pos; lia).
  destruct (add_padding_int_stores inp mid z w img W H)
    as (once & Hfiles1 & _ & Hsize1); try assumption.
  { fold W1 H1. apply (canvas_fits_le _ _ Hfit); cbn [fst snd]; lia. }
  fold W1 H1 in Hsize1.
  assert (Hmid : files (snd (add_padding inp mid (Py.Int z) w)) !! mid
                 = Some (Encoded once))
    by (rewrite Hfiles1; apply lookup_insert_eq).
  destruct (add_padding_int_stores mid outp z
              (snd (add_padding inp mid (Py.Int z) w)) once W1 H1)
    as (twice & Hfiles2 & _ & Hsize2); try assumption; try lia.
  exists once, twice. rewrite Hsize1, Hsize2. cbn [fst snd].
  repeat split; try assumption.
  - rewrite Hfiles2. apply lookup_insert_eq.
  - intros [= HeqW HeqH]. lia.
Qed.

(** C7 on a concrete input: a 100x200 file padded twice by 15 percent. *)
Lemma C7_second_run_pads_again_witness :
  files Demo.grey_world !! "icon.png" = Some (Encoded (Demo.grey 100 200)) /\
  size (Demo.grey 100 200) = (100, 200) /\
  1 <= 100 /\ 1 <= 200 /\ 0 <= 15 /\
  canvas_fits
    (100 + 2 * spec_padding 100 (Py.Int 15)
       + 2 * spec_padding (100 + 2 * spec_padding 100 (Py.Int 15)) (Py.Int 15),
     200 + 2 * spec_padding 200 (Py.Int 15)
       + 2 * spec_padding (200 + 2 * spec_padding 200 (Py.Int 15)) (Py.Int 15)) /\
  (0 < spec_padding 100 (Py.Int 15) \/ 0 < spec_padding 200 (Py.Int 15)) /\
  (forall c, @fault Demo.platform c = None) /\
  exists once twice,
    files (snd (@add_padding Demo.platform "icon.png" "once.png" (Py.Int 15)
                  Demo.grey_world)) !! "once.png" = Some (Encoded once) /\
    files (snd (@add_padding Demo.platform "once.png" "twice.png" (Py.Int 15)
                  (snd (@add_padding Demo.platform "icon.png" "once.png" (Py.Int 15)
                          Demo.grey_world)))) !! "twice.png"
      = Some (Encoded twice) /\
    size once = (100 + 2 * spec_padding 100 (Py.Int 15),
                 200 + 2 * spec_padding 200 (Py.Int 15)) /\
    size twice = (fst (size once) + 2 * spec_padding (fst (size once)) (Py.Int 15),
                  snd (size once) + 2 * spec_padding (snd (size once)) (Py.Int 15)) /\
    spec_padding 100 (Py.Int 15) <= spec_padding (fst (size once)) (Py.Int 15) /\
    spec_padding 200 (Py.Int 15) <= spec_padding (snd (size once)) (Py.Int 15) /\
    size twice <> size once.
Proof.
  assert (Hin : files Demo.grey_world !! "icon.png" = Some (Encoded (Demo.grey 100 200)))
    by (vm_compute; reflexivity).
  assert (Hok : forall c, @fault Demo.platform c = None) by reflexivity.
  assert (Hfit : canvas_fits
    (100 + 2 * spec_padding 100 (Py.Int 15)
       + 2 * spec_padding (100 + 2 * spec_padding 100 (Py.Int 15)) (Py.Int 15),
     200 + 2 * spec_padding 200 (Py.Int 15)
       + 2 * spec_padding (200 + 2 * spec_padding 200 (Py.Int 15)) (Py.Int 15)))
    by (vm_compute; repeat split; discriminate).
  assert (Hpos : 0 < spec_padding 100 (Py.Int 15) \/ 0 < spec_padding 200 (Py.Int 15))
    by (left; vm_compute; reflexivity).
  repeat (split; [first [assumption | reflexivity | lia]|]).
  exact (@C7_second_run_pads_again Demo.platform "icon.png" "once.png" "twice.png" 15
           Demo.grey_world (Demo.grey 100 200) 100 200
           Hin eq_refl ltac:(lia) ltac:(lia) ltac:(lia) Hfit Hpos Hok).
Defined.

(** C8.  In every run, whatever its outcome, each resize asks for exactly
    the size that the image already has: the content region
    [(new_width - 2 * padding_x, new_height - 2 * padding_y)] is
    [(old_width, old_height)].  A run that returns has made such a call. *)
Theorem C8_content_region_is_original_size {plat : Platform} inp outp p w :
  exists l,
    calls (snd (add_padding inp outp p w)) = calls w ++ l /\
    (forall from to, CResize from to ∈ l -> to = from) /\
    (fst (add_padding inp outp p w) = inr tt -> exists sz, CResize sz sz ∈ l).
Proof.
  destruct (add_padding inp outp p w) as [r w'] eqn:Hrun.
  destruct (add_padding_trace _ _ _ _ _ _ Hrun) as (l & Hcalls & _ & _ & Hsome & Hall & _).
  exists l. cbn [fst snd]. auto.
Qed.

(** C9.  For a percentage that is not negative, the image that a run
    stores is at least as wide and at least as high as the input. *)
Theorem C9_output_not_smaller {plat : Platform} inp outp p w w' img :
  Py.nonneg p ->
  files w !! inp = Some (Encoded img) ->
  0 <= fst (size img) -> 0 <= snd (size img) ->
  add_padding inp outp p w = (inr tt, w') ->
  exists out,
    files w' !! outp = Some (Encoded out) /\
    fst (size img) <= fst (size out) /\
    snd (size img) <= snd (size out).
Proof.
  intros Hp Hin HW HH Hrun.
  destruct (add_padding_inv _ _ _ _ _ Hrun)
    as (img' & px & py & Hin' & Hpx & Hpy & _ & _ & Hfiles & _).
  rewrite Hin in Hin'. injection Hin' as <-.
  rewrite as_rgba_size in Hpx, Hpy.
  apply padding_of_nonneg in Hpx, Hpy; try assumption.
  exists (padded (as_rgba img) px py). split.
  - rewrite Hfiles. apply lookup_insert_eq.
  - unfold padded. rewrite as_rgba_size.
    destruct (size img) as [old_width old_height].
    cbn [Image.pasted Image.blank size fst snd]. lia.
Qed.

(** C9 on a concrete input: a 100x200 file and 15 percent. *)
Lemma C9_output_not_smaller_witness :
  Py.nonneg (Py.Int 15) /\
  files Demo.grey_world !! "icon.png" = Some (Encoded (Demo.grey 100 200)) /\
  0 <= fst (size (Demo.grey 100 200)) /\ 0 <= snd (size (Demo.grey 100 200)) /\
  @add_padding Demo.platform "icon.png" "padded.png" (Py.Int 15) Demo.grey_world
    = (inr tt, snd (@add_padding Demo.platform "icon.png" "padded.png" (Py.Int 15)
                      Demo.grey_world)) /\
  exists out,
    files (snd (@add_padding Demo.platform "icon.png" "padded.png" (Py.Int 15)
                  Demo.grey_world)) !! "padded.png" = Some (Encoded out) /\
    fst (size (Demo.grey 100 200)) <= fst (size out) /\
    snd (size (Demo.grey 100 200)) <= snd (size out).
Proof.
  assert (Hp : Py.nonneg (Py.Int 15)) by (simpl; lia).
  assert (Hin : files Demo.grey_world !! "icon.png" = Some (Encoded (Demo.grey 100 200)))
    by (vm_compute; reflexivity).
  assert (HW : 0 <= fst (size (Demo.grey 100 200))) by (simpl; lia).
  assert (HH : 0 <= snd (size (Demo.grey 100 200))) by (simpl; lia).
  assert (Hrun : @add_padding Demo.platform "icon.png" "padded.png" (Py.Int 15)
                   Demo.grey_world
                 = (inr tt, snd (@add_padding Demo.platform "icon.png" "padded.png"
                                   (Py.Int 15) Demo.grey_world)))
    by (vm_compute; reflexivity).
  split; [exact Hp|]. split; [exact Hin|]. split; [exact HW|]. split; [exact HH|].
  split; [exact Hrun|].
  exact (@C9_output_not_smaller Demo.platform _ _ _ _ _ _ Hp Hin HW HH Hrun).
Defined.

(** C10 (counterexample).  The error branch is reachable inside the
    precondition as well: the [int] [10 ** 400] and the [float] [inf] are
    not negative, and on a 100x100 input the first makes the division
    raise an [OverflowError] and the second makes [int()] raise one. *)
Lemma C10_error_inside_precondition_counterexample :
  Py.nonneg Demo.googol_power /\
  fst (@add_padding Demo.platform "icon.png" "padded.png" Demo.googol_power
         Demo.hundred_world)
    = inl (Py.OverflowError "integer division result too large for a float") /\
  Py.nonneg Demo.plus_infinity /\
  fst (@add_padding Demo.platform "icon.png" "padded.png" Demo.plus_infinity
         Demo.hundred_world)
    = inl (Py.OverflowError "cannot convert float infinity to integer").
Proof.
  split; [vm_compute; discriminate|].
  split; [vm_compute; reflexivity|].
  split; vm_compute; reflexivity.
Qed.

(** C10 (amended).  [add_padding] does not check its percentage.  On a
    100x100 input, [-60] gives paddings of [-60] and a canvas of
    [(-20, -20)], which the canvas allocation refuses with a [ValueError]
    before anything is written, while [-10] is accepted and an 80x80 image
    is stored.  For a percentage that is not negative no canvas of a
    negative size is ever asked for, on any input, so this refusal is
    reachable only outside the precondition; other exceptions are
    reachable inside it, as with the percentage [inf]. *)
Theorem C10_negative_percent_unchecked {plat : Platform} inp outp w img :
  files w !! inp = Some (Encoded img) ->
  size img = (100, 100) ->
  (forall c, fault c = None) ->
  (exists w',
     add_padding inp outp (Py.Int (-60)) w
       = (inl (Py.ValueError "Width and height must be >= 0"), w') /\
     files w' = files w /\
     last (calls w') = Some (CNew "RGBA" (-20, -20))) /\
  stored_size (snd (add_padding inp outp (Py.Int (-10)) w)) outp = Some (80, 80) /\
  (forall inp0 outp0 p w0 img0,
     Py.nonneg p ->
     files w0 !! inp0 = Some (Encoded img0) ->
     0 <= fst (size img0) -> 0 <= snd (size img0) ->
     forall md sz,
       CNew md sz ∈ drop (length (calls w0)) (calls (snd (add_padding inp0 outp0 p w0))) ->
       0 <= fst sz /\ 0 <= snd sz) /\
  (Py.nonneg (Py.Float (S754_infinity false)) /\
   exists e w', add_padding inp outp (Py.Float (S754_infinity false)) w = (inl e, w')).
Proof.
  intros Hin Hsize Hok.
  assert (Hsixty : padding_of 100 (Py.Int (-60)) = inr (-60))
    by (vm_compute; reflexivity).
  assert (Hten : padding_of 100 (Py.Int (-10)) = inr (-10))
    by (vm_compute; reflexivity).
  assert (Hinf : padding_of 100 (Py.Float (S754_infinity false))
                 = inl (Py.OverflowError "cannot convert float infinity to integer"))
    by (vm_compute; reflexivity).
  split; [|split; [|split]].
  - unfold padding_of in Hsixty. unfold_run. rewrite Hin.
    destruct (negb (String.eqb (mode img) "RGBA")); rewrite ?Hok;
      cbn [files stdout stderr calls fst snd Image.converted size];
      rewrite Hsize, Hsixty;
      cbn [files stdout stderr calls fst snd];
      change ((100 + 2 * -60 <? 0) || (100 + 2 * -60 <? 0)) with true;
      cbv iota; eexists; (split; [reflexivity|]);
      cbn [files calls]; (split; [reflexivity|]);
      rewrite last_snoc; reflexivity.
  - destruct (add_padding_run inp outp (Py.Int (-10)) w img (-10) (-10))
      as (w' & Hrun & Hfiles & _);
      try assumption; try (rewrite as_rgba_size, Hsize; cbn [fst snd]; (assumption || lia)).
    rewrite Hrun. cbn [snd].
    unfold stored_size. rewrite Hfiles, lookup_insert_eq.
    unfold padded. rewrite as_rgba_size, Hsize. reflexivity.
  - intros inp0 outp0 p w0 img0 Hp Hin0 HW HH md sz Hel.
    destruct (add_padding inp0 outp0 p w0) as [r w'] eqn:Hrun.
    destruct (add_padding_trace _ _ _ _ _ _ Hrun) as (l & Hcalls & _ & _ & _ & _ & Hnew).
    cbn [snd] in Hel. rewrite Hcalls, drop_app_length in Hel.
    destruct (Hnew md sz Hel) as (img' & px & py & Hin' & Hpx & Hpy & ->).
    rewrite Hin0 in Hin'. injection Hin' as <-.
    rewrite as_rgba_size in *. cbn [fst snd].
    apply padding_of_nonneg in Hpx, Hpy; try assumption. lia.
  - split; [reflexivity|].
    destruct (add_padding inp outp (Py.Float (S754_infinity false)) w)
      as [[e|[]] w'] eqn:Hrun; [eauto|exfalso].
    destruct (add_padding_inv _ _ _ _ _ Hrun) as (img' & px & py & Hin' & Hpx & _).
    rewrite Hin in Hin'. injection Hin' as <-.
    rewrite as_rgba_size, Hsize in Hpx. cbn [fst] in Hpx. congruence.
Qed.

(** C10 on a concrete input: a 100x100 file. *)
Lemma C10_negative_percent_unchecked_witness :
  files Demo.hundred_world !! "icon.png" = Some (Encoded (Demo.square 100)) /\
  size (Demo.square 100) = (100, 100) /\
  (forall c, @fault Demo.platform c = None) /\
  (exists w',
     @add_padding Demo.platform "icon.png" "padded.png" (Py.Int (-60)) Demo.hundred_world
       = (inl (Py.ValueError "Width and height must be >= 0"), w') /\
     files w' = files Demo.hundred_world /\
     last (calls w') = Some (CNew "RGBA" (-20, -20))) /\
  stored_size (snd (@add_padding Demo.platform "icon.png" "padded.png" (Py.Int (-10))
                      Demo.hundred_world)) "padded.png" = Some (80, 80) /\
  (forall inp0 outp0 p w0 img0,
     Py.nonneg p ->
     files w0 !! inp0 = Some (Encoded img0) ->
     0 <= fst (size img0) -> 0 <= snd (size img0) ->
     forall md sz,
       CNew md sz ∈ drop (length (calls w0))
                         (calls (snd (@add_padding Demo.platform inp0 outp0 p w0))) ->
       0 <= fst sz /\ 0 <= snd sz) /\
  (Py.nonneg (Py.Float (S754_infinity false)) /\
   exists e w',
     @add_padding Demo.platform "icon.png" "padded.png" (Py.Float (S754_infinity false))
       Demo.hundred_world = (inl e, w')).
Proof.
  assert (Hin : files Demo.hundred_world !! "icon.png" = Some (Encoded (Demo.square 100)))
    by (vm_compute; reflexivity).
  assert (Hok : forall c, @fault Demo.platform c = None) by reflexivity.
  split; [exact Hin|]. split; [reflexivity|]. split; [exact Hok|].
  exact (@C10_negative_percent_unchecked Demo.platform "icon.png" "padded.png"
           Demo.hundred_world (Demo.square 100) Hin eq_refl Hok).
Defined.

(** * Further properties of the script *)

(** ** Integer percentages of either sign *)

(** The quotient by 100 of an [int] of either sign. *)
Lemma SFdiv_100_trunc_signed (s : bool) (n : positive) :
  Z.pos n < 100 * 2 ^ 47 ->
  exists m e,
    SFdiv 53 1024 (S754_finite s n 0) (S754_finite false 100 0)
      = S754_finite s m e /\
    Z.shiftl (Z.pos m) e = Z.pos n / 100.
Proof.
  intros Hn.
  destruct (SFdiv_100_trunc n Hn) as (m & e & Hdiv & Hval).
  exists m, e. split; [|exact Hval].
  destruct s; [|exact Hdiv].
  revert Hdiv. unfold SFdiv. cbn [xorb].
  destruct (SFdiv_core_binary 53 1024 (Z.pos n) 0 100 0) as [[mz ez] lz].
  unfold binary_round_aux.
  destruct (shr_fexp 53 1024 mz ez lz) as [mrs e1].
  destruct (shr_fexp 53 1024 _ e1 loc_Exact) as [mrs' e2].
  destruct (shr_m mrs'); try discriminate.
  destruct (e2 <=? 1024 - 53); try discriminate.
  intros [= -> ->]. reflexivity.
Qed.

(** [int(a / 100)] for an [int] of either sign is the quotient rounded
    towards zero. *)
Lemma int_truediv_100_signed a :
  Z.abs a < 100 * 2 ^ 47 ->
  Py.bind (Py.truediv (Py.Int a) (Py.Int 100)) Py.int = Py.ret (Z.quot a 100).
Proof.
  intros Hrange. cbn [Py.truediv]. unfold Py.long_true_divide.
  destruct a as [|n|n].
  - reflexivity.
  - change (Z.pos n <? 0) with false. change (100 <? 0) with false.
    change (Z.to_pos (Z.abs (Z.pos n))) with n.
    change (Z.to_pos (Z.abs 100)) with 100%positive.
    destruct (SFdiv_100_trunc_signed false n) as (m & e & -> & Hval); [exact Hrange|].
    cbn [Py.bind Py.ret Py.int Py.float_trunc cond_Zopp]. unfold Py.ret.
    rewrite Hval, Z.quot_div_nonneg by lia. reflexivity.
  - change (Z.neg n <? 0) with true. change (100 <? 0) with false.
    change (Z.to_pos (Z.abs (Z.neg n))) with n.
    change (Z.to_pos (Z.abs 100)) with 100%positive.
    destruct (SFdiv_100_trunc_signed true n) as (m & e & -> & Hval); [exact Hrange|].
    cbn [Py.bind Py.ret Py.int Py.float_trunc cond_Zopp]. unfold Py.ret.
    rewrite Hval. f_equal.
    change (Z.neg n) with (- Z.pos n). rewrite Z.quot_opp_l by lia.
    rewrite Z.quot_div_nonneg by lia. reflexivity.
Qed.

(** ** Effects of a run *)

Section Effects.
Context `{Platform}.
#[local] Arguments times : simpl never.
#[local] Arguments over : simpl never.
#[local] Arguments int_ : simpl never.

(** A run that returns: what it stored and what it printed. *)
Lemma add_padding_report inp outp p w w' :
  add_padding inp outp p w = (inr tt, w') ->
  exists img px py,
    files w !! inp = Some (Encoded img) /\
    padding_of (fst (size img)) p = inr px /\
    padding_of (snd (size img)) p = inr py /\
    files w' = <[outp := Encoded (padded (as_rgba img) px py)]> (files w) /\
    stdout w' = stdout w ++
      ["✓ Created padded icon: " +:+ outp;
       "  Original size: " +:+ pretty (fst (size img)) +:+ "x" +:+ pretty (snd (size img));
       "  New size: " +:+ pretty (fst (size img) + 2 * px) +:+ "x"
         +:+ pretty (snd (size img) + 2 * py);
       "  Padding: " +:+ Py.format float_repr p +:+ "% ("
         +:+ pretty px +:+ "px horizontal, " +:+ pretty py +:+ "px vertical)"].
Proof.
  unfold padding_of, padded, as_rgba. unfold_run.
  destruct (files w !! inp) as [[img0|]|] eqn:Hin; try (intros; discriminate).
  intros Hrun. exists img0.
  split_run Hrun.
  all: injection Hrun as <-.
  all: cbn [Image.converted size] in *.
  all: repeat match goal with
         | E : size _ = _ |- _ => rewrite E; clear E
         end.
  all: cbn [fst snd files stdout].
  all: rewrite <- ?app_assoc; cbn [app].
  all: eexists _, _; repeat split; (eassumption || reflexivity).
Qed.

(** The calls of a run and its effect on the file store, whatever the
    outcome. *)
Lemma add_padding_effects inp outp p w r w' :
  add_padding inp outp p w = (r, w') ->
  exists l,
    calls w' = calls w ++ l /\
    (forall path, COpen path ∈ l -> path = inp) /\
    (forall path, CSave path ∈ l -> path = outp /\ last l = Some (CSave outp)) /\
    (forall to, CConvert to ∈ l ->
       to = "RGBA" /\
       exists img, files w !! inp = Some (Encoded img) /\ mode img <> "RGBA") /\
    (forall e, r = inl e -> fault (CSave outp) = None -> files w' = files w) /\
    (CSave outp ∉ l -> files w' = files w) /\
    (r = inr tt -> CSave outp ∈ l) /\
    (forall path, CSave path ∈ l -> exists md sz, CNew md sz ∈ l) /\
    (r = inr tt -> forall img, files w !! inp = Some (Encoded img) ->
       mode img <> "RGBA" -> CConvert "RGBA" ∈ l).
Proof.
  unfold_run.
  destruct (files w !! inp) as [[img0|]|] eqn:Hin; intros Hrun.
  all: split_run Hrun.
  all: injection Hrun as <- <-; cbn [files stdout stderr calls].
  all: rewrite <- ?app_assoc; cbn [app].
  all: eexists; split; [reflexivity|].
  all: split; [intros path Hel|].
  all: try (repeat (apply elem_of_cons in Hel as [Hel|Hel]; try discriminate Hel);
            [injection Hel as ->; reflexivity|apply elem_of_nil in Hel; contradiction]).
  all: split; [intros path Hel|].
  all: try (repeat (apply elem_of_cons in Hel as [Hel|Hel]; try discriminate Hel);
            first [apply elem_of_nil in Hel; contradiction
                  |injection Hel as ->; split; reflexivity]).
  all: split; [intros to Hel|].
  all: try (repeat (apply elem_of_cons in Hel as [Hel|Hel]; try discriminate Hel);
            first [apply elem_of_nil in Hel; contradiction
                  |injection Hel as ->; split; [reflexivity|];
                   eexists; split; [reflexivity|];
                   match goal with
                   | E : negb (String.eqb _ _) = true |- _ =>
                       apply negb_true_iff, String.eqb_neq in E; exact E
                   end]).
  all: split; [intros ? He Hsave; first [reflexivity|discriminate He|congruence]|].
  all: split; [intros Hnot;
               first [reflexivity
                     |exfalso; apply Hnot; rewrite !elem_of_cons; eauto 10]|].
  all: split; [intros Hr; first [discriminate Hr|rewrite !elem_of_cons; eauto 10]|].
  all: split; [intros path Hel|].
  all: try (repeat (apply elem_of_cons in Hel as [Hel|Hel]; try discriminate Hel);
            first [apply elem_of_nil in Hel; contradiction
                  |eexists _, _; rewrite !elem_of_cons; eauto 10]).
  all: intros Hr img Himg Hmode; try discriminate Hr.
  all: injection Himg as <-.
  all: first [rewrite !elem_of_cons; solve [eauto 10]
             |exfalso;
              match goal with
              | E : negb (String.eqb _ _) = false |- _ =>
                  apply negb_false_iff, String.eqb_eq in E; exact (Hmode E)
              end].
Qed.

(** A run whose paddings give a canvas of negative width or height. *)
Lemma add_padding_negative_canvas inp outp p w img px py :
  files w !! inp = Some (Encoded img) ->
  padding_of (fst (size img)) p = inr px ->
  padding_of (snd (size img)) p = inr py ->
  fst (size img) + 2 * px < 0 \/ snd (size img) + 2 * py < 0 ->
  (forall c, fault c = None) ->
  exists w',
    add_padding inp outp p w
      = (inl (Py.ValueError "Width and height must be >= 0"), w') /\
    files w' = files w /\ stdout w' = stdout w.
Proof.
  unfold padding_of. unfold_run.
  intros Hin Hpx Hpy Hneg Hok. rewrite Hin.
  destruct (negb (String.eqb (mode img) "RGBA")); rewrite ?Hok;
    cbn [files stdout stderr calls fst snd Image.converted size];
    destruct (size img) as [old_width old_height];
    cbn [fst snd] in *; rewrite Hpx, Hpy;
    cbn [files stdout stderr calls fst snd];
    (assert ((old_width + 2 * px <? 0) || (old_height + 2 * py <? 0) = true) as ->
       by (apply orb_true_iff; rewrite !Z.ltb_lt; exact Hneg));
    eexists; repeat split; reflexivity.
Qed.

End Effects.

(** ** Percentages that are not finite *)

Lemma padding_of_not_finite old f :
  f = S754_nan \/ (exists s, f = S754_infinity s) ->
  exists e, padding_of old (Py.Float f) = inl e.
Proof.
  intros Hf. unfold padding_of, int_, over, times, lit, var.
  cbn [Py.bind Py.ret Py.mul].
  destruct (Py.float_of_int old) as [e|x]; [eexists; reflexivity|].
  cbn [Py.bind Py.ret Py.truediv]. rewrite float_100.
  cbn [Py.bind Py.ret Py.float_div].
  destruct Hf as [->|[s ->]];
    destruct x as [sx|sx| |sx mx ex]; cbn; eexists; reflexivity.
Qed.

(** ** The stored image *)

Lemma padded_size {plat : Platform} img px py :
  size (padded img px py) = (fst (size img) + 2 * px, snd (size img) + 2 * py).
Proof. unfold padded. destruct (size img). reflexivity. Qed.

Lemma padded_mode {plat : Platform} img px py : mode (padded img px py) = "RGBA".
Proof. unfold padded. destruct (size img). reflexivity. Qed.

(** X1.  A run that returns has printed four lines, and the sizes in them
    are the size of the input and the size of the image it stored. *)
Theorem X1_report_matches_stored_image {plat : Platform} inp outp p w w' :
  add_padding inp outp p w = (inr tt, w') ->
  exists img out px py,
    files w !! inp = Some (Encoded img) /\
    files w' !! outp = Some (Encoded out) /\
    padding_of (fst (size img)) p = inr px /\
    padding_of (snd (size img)) p = inr py /\
    stdout w' = stdout w ++
      ["✓ Created padded icon: " +:+ outp;
       "  Original size: " +:+ pretty (fst (size img)) +:+ "x" +:+ pretty (snd (size img));
       "  New size: " +:+ pretty (fst (size out)) +:+ "x" +:+ pretty (snd (size out));
       "  Padding: " +:+ Py.format float_repr p +:+ "% ("
         +:+ pretty px +:+ "px horizontal, " +:+ pretty py +:+ "px vertical)"].
Proof.
  intros Hrun.
  destruct (add_padding_report _ _ _ _ _ Hrun)
    as (img & px & py & Hin & Hpx & Hpy & Hfiles & Hout).
  exists img, (padded (as_rgba img) px py), px, py.
  rewrite padded_size, as_rgba_size. cbn [fst snd].
  repeat split; try assumption.
  rewrite Hfiles. apply lookup_insert_eq.
Qed.

Lemma X1_report_matches_stored_image_witness :
  @add_padding Demo.platform "icon.png" "padded.png" (Py.Int 15) Demo.grey_world
    = (inr tt, snd (@add_padding Demo.platform "icon.png" "padded.png" (Py.Int 15)
                      Demo.grey_world)) /\
  exists img out px py,
    files Demo.grey_world !! "icon.png" = Some (Encoded img) /\
    files (snd (@add_padding Demo.platform "icon.png" "padded.png" (Py.Int 15)
                  Demo.grey_world)) !! "padded.png" = Some (Encoded out) /\
    padding_of (fst (size img)) (Py.Int 15) = inr px /\
    padding_of (snd (size img)) (Py.Int 15) = inr py /\
    stdout (snd (@add_padding Demo.platform "icon.png" "padded.png" (Py.Int 15)
                   Demo.grey_world)) = stdout Demo.grey_world ++
      ["✓ Created padded icon: " +:+ "padded.png";
       "  Original size: " +:+ pretty (fst (size img)) +:+ "x" +:+ pretty (snd (size img));
       "  New size: " +:+ pretty (fst (size out)) +:+ "x" +:+ pretty (snd (size out));
       "  Padding: " +:+ Py.format (@float_repr Demo.platform) (Py.Int 15) +:+ "% ("
         +:+ pretty px +:+ "px horizontal, " +:+ pretty py +:+ "px vertical)"].
Proof.
  assert (Hrun : @add_padding Demo.platform "icon.png" "padded.png" (Py.Int 15)
                   Demo.grey_world
                 = (inr tt, snd (@add_padding Demo.platform "icon.png" "padded.png"
                                   (Py.Int 15) Demo.grey_world)))
    by (vm_compute; reflexivity).
  split; [exact Hrun|].
  exact (@X1_report_matches_stored_image Demo.platform _ _ _ _ _ Hrun).
Defined.

(** X2.  A run that raises before it reaches the save leaves the file
    store as it was and has printed nothing: the computation of the
    paddings and every image operation come before the only write, and the
    report comes after it. *)
Theorem X2_run_failing_before_save_keeps_files {plat : Platform} inp outp p w e w' :
  add_padding inp outp p w = (inl e, w') ->
  (forall path, CSave path ∉ drop (length (calls w)) (calls w')) ->
  files w' = files w /\ stdout w' = stdout w.
Proof.
  intros Hrun Hsave.
  destruct (add_padding_effects _ _ _ _ _ _ Hrun)
    as (l & Hcalls & _ & _ & _ & _ & Hfiles & _).
  destruct (add_padding_trace _ _ _ _ _ _ Hrun) as (l' & _ & _ & Hout & _).
  rewrite Hcalls, drop_app_length in Hsave.
  split; [exact (Hfiles (Hsave outp))|exact (Hout e eq_refl)].
Qed.

Lemma X2_run_failing_before_save_keeps_files_witness :
  @add_padding Demo.platform "icon.png" "padded.png" (Py.Int (-60)) Demo.hundred_world
    = (inl (Py.ValueError "Width and height must be >= 0"),
       snd (@add_padding Demo.platform "icon.png" "padded.png" (Py.Int (-60))
              Demo.hundred_world)) /\
  (forall path,
     CSave path ∉ drop (length (calls Demo.hundred_world))
                       (calls (snd (@add_padding Demo.platform "icon.png" "padded.png"
                                      (Py.Int (-60)) Demo.hundred_world)))) /\
  files (snd (@add_padding Demo.platform "icon.png" "padded.png" (Py.Int (-60))
                Demo.hundred_world)) = files Demo.hundred_world /\
  stdout (snd (@add_padding Demo.platform "icon.png" "padded.png" (Py.Int (-60))
                 Demo.hundred_world)) = stdout Demo.hundred_world.
Proof.
  assert (Hrun : @add_padding Demo.platform "icon.png" "padded.png" (Py.Int (-60))
                   Demo.hundred_world
                 = (inl (Py.ValueError "Width and height must be >= 0"),
                    snd (@add_padding Demo.platform "icon.png" "padded.png"
                           (Py.Int (-60)) Demo.hundred_world)))
    by (vm_compute; reflexivity).
  assert (Hsave : forall path,
            CSave path ∉ drop (length (calls Demo.hundred_world))
                              (calls (snd (@add_padding Demo.platform "icon.png"
                                             "padded.png" (Py.Int (-60))
                                             Demo.hundred_world)))).
  { intros path Hel. vm_compute in Hel.
    repeat (apply elem_of_cons in Hel as [Hel|Hel]; [discriminate Hel|]).
    apply elem_of_nil in Hel. exact Hel. }
  split; [exact Hrun|]. split; [exact Hsave|].
  exact (@X2_run_failing_before_save_keeps_files Demo.platform _ _ _ _ _ _ Hrun Hsave).
Defined.

(** Inside the paste box, a pixel of the padded canvas is the blend of
    the content pixel at the same place relative to the box. *)
Lemma padded_getpixel_content {plat : Platform} img px py x y :
  px <= x < px + fst (size img) -> py <= y < py + snd (size img) ->
  getpixel (padded img px py) (x, y) =
    Image.blend_pixel
      (alpha (getpixel (Image.resized img (size img)) (x - px, y - py)))
      (0, 0, 0, 0)
      (getpixel (Image.resized img (size img)) (x - px, y - py)).
Proof.
  unfold padded. destruct (size img) as [old_width old_height].
  cbn [Image.pasted Image.blank size getpixel fst snd].
  replace (old_width + 2 * px - 2 * px) with old_width by lia.
  replace (old_height + 2 * py - 2 * py) with old_height by lia.
  intros Hx Hy.
  change (size (Image.resized img (old_width, old_height)))
    with (old_width, old_height).
  assert (Image.inside (px, py) (old_width, old_height) (x, y) = true) as ->;
    [|reflexivity].
  unfold Image.inside. cbn [fst snd].
  rewrite !andb_true_iff, !Z.leb_le, !Z.ltb_lt. lia.
Qed.

(** X4.  The image that a run stores, for any percentage: its mode is
    RGBA whatever the mode of the input, each dimension is the old one plus
    twice the padding of its axis, and the content sits at the offset
    [(padding_x, padding_y)]: a pixel of the content region is the blend of
    the content pixel at the same place, relative to that offset, over the
    transparent canvas. *)
Theorem X4_content_is_pasted_at_the_padding_offset
    {plat : Platform} inp outp p w w' :
  add_padding inp outp p w = (inr tt, w') ->
  exists img out px py,
    files w !! inp = Some (Encoded img) /\
    files w' !! outp = Some (Encoded out) /\
    padding_of (fst (size img)) p = inr px /\
    padding_of (snd (size img)) p = inr py /\
    mode out = "RGBA" /\
    size out = (fst (size img) + 2 * px, snd (size img) + 2 * py) /\
    forall x y,
      px <= x < px + fst (size img) -> py <= y < py + snd (size img) ->
      let content :=
        getpixel (Image.resized (as_rgba img) (size img)) (x - px, y - py) in
      getpixel out (x, y) = Image.blend_pixel (alpha content) (0, 0, 0, 0) content.
Proof.
  intros Hrun.
  destruct (add_padding_report _ _ _ _ _ Hrun)
    as (img & px & py & Hin & Hpx & Hpy & Hfiles & _).
  exists img, (padded (as_rgba img) px py), px, py.
  rewrite padded_size, padded_mode, as_rgba_size.
  repeat split; try assumption.
  - rewrite Hfiles. apply lookup_insert_eq.
  - intros x y Hx Hy content. subst content.
    rewrite <- (as_rgba_size img).
    apply padded_getpixel_content; rewrite as_rgba_size; assumption.
Qed.

Lemma X4_content_is_pasted_at_the_padding_offset_witness :
  @add_padding Demo.platform "icon.png" "padded.png" (Py.Int 15) Demo.grey_world
    = (inr tt, snd (@add_padding Demo.platform "icon.png" "padded.png" (Py.Int 15)
                      Demo.grey_world)) /\
  exists img out px py,
    files Demo.grey_world !! "icon.png" = Some (Encoded img) /\
    files (snd (@add_padding Demo.platform "icon.png" "padded.png" (Py.Int 15)
                  Demo.grey_world)) !! "padded.png" = Some (Encoded out) /\
    padding_of (fst (size img)) (Py.Int 15) = inr px /\
    padding_of (snd (size img)) (Py.Int 15) = inr py /\
    mode out = "RGBA" /\
    size out = (fst (size img) + 2 * px, snd (size img) + 2 * py) /\
    forall x y,
      px <= x < px + fst (size img) -> py <= y < py + snd (size img) ->
      let content :=
        getpixel (@Image.resized Demo.platform (@as_rgba Demo.platform img) (size img))
          (x - px, y - py) in
      getpixel out (x, y)
        = @Image.blend_pixel Demo.platform (alpha content) (0, 0, 0, 0) content.
Proof.
  assert (Hrun : @add_padding Demo.platform "icon.png" "padded.png" (Py.Int 15)
                   Demo.grey_world
                 = (inr tt, snd (@add_padding Demo.platform "icon.png" "padded.png"
                                   (Py.Int 15) Demo.grey_world)))
    by (vm_compute; reflexivity).
  split; [exact Hrun|].
  exact (@X4_content_is_pasted_at_the_padding_offset Demo.platform _ _ _ _ _ Hrun).
Defined.

(** X5.  With a percentage that is NaN or an infinity, [int()] raises:
    the run never returns, whatever the input, the file store is as it was
    and nothing is printed. *)
Theorem X5_percent_not_finite_raises {plat : Platform} inp outp f w :
  f = S754_nan \/ (exists s, f = S754_infinity s) ->
  exists e w',
    add_padding inp outp (Py.Float f) w = (inl e, w') /\
    files w' = files w /\ stdout w' = stdout w.
Proof.
  intros Hf.
  destruct (add_padding inp outp (Py.Float f) w) as [[e|[]] w'] eqn:Hrun.
  - exists e, w'. split; [reflexivity|].
    destruct (add_padding_effects _ _ _ _ _ _ Hrun)
      as (l & Hcalls & _ & _ & _ & _ & Hfiles & _ & Hnew & _).
    destruct (add_padding_trace _ _ _ _ _ _ Hrun)
      as (l' & Hcalls' & _ & Hout & _ & _ & Hpad).
    assert (l' = l) as -> by (rewrite Hcalls in Hcalls'; now apply app_inv_head in Hcalls').
    split; [|exact (Hout e eq_refl)].
    apply Hfiles. intros Hsave.
    destruct (Hnew _ Hsave) as (md & sz & Hel).
    destruct (Hpad md sz Hel) as (img & px & py & _ & Hpx & _).
    destruct (padding_of_not_finite (fst (size (as_rgba img))) f Hf) as [e' He'].
    congruence.
  - exfalso.
    destruct (add_padding_inv _ _ _ _ _ Hrun) as (img & px & py & _ & Hpx & _).
    destruct (padding_of_not_finite (fst (size (as_rgba img))) f Hf) as [e' He'].
    congruence.
Qed.

Lemma X5_percent_not_finite_raises_witness :
  (S754_infinity false = S754_nan \/ (exists s, S754_infinity false = S754_infinity s)) /\
  exists e w',
    @add_padding Demo.platform "icon.png" "padded.png"
      (Py.Float (S754_infinity false)) Demo.grey_world = (inl e, w') /\
    files w' = files Demo.grey_world /\ stdout w' = stdout Demo.grey_world.
Proof.
  assert (Hf : S754_infinity false = S754_nan \/
               (exists s, S754_infinity false = S754_infinity s))
    by (right; exists false; reflexivity).
  split; [exact Hf|].
  exact (@X5_percent_not_finite_raises Demo.platform "icon.png" "padded.png"
           (S754_infinity false) Demo.grey_world Hf).
Defined.

(** X6.  For an [int] percentage of either sign with [|old * z|] below
    [100 * 2^47], the padding [int(old * z / 100)] is the quotient rounded
    towards zero: a negative percentage crops by the truncated amount, not
    by the floor. *)
Theorem X6_int_percent_truncates_towards_zero old z :
  Z.abs (old * z) < 100 * 2 ^ 47 ->
  padding_of old (Py.Int z) = inr (Z.quot (old * z) 100).
Proof.
  intros Hrange. unfold padding_of, int_, over, times, lit, var.
  cbn [Py.bind Py.ret Py.mul].
  exact (int_truediv_100_signed (old * z) Hrange).
Qed.

Lemma X6_int_percent_truncates_towards_zero_witness :
  Z.abs (10 * -15) < 100 * 2 ^ 47 /\
  padding_of 10 (Py.Int (-15)) = inr (Z.quot (10 * -15) 100) /\
  Z.quot (10 * -15) 100 = -1 /\ (10 * -15) / 100 = -2.
Proof.
  assert (Hr : Z.abs (10 * -15) < 100 * 2 ^ 47) by (vm_compute; reflexivity).
  split; [exact Hr|]. split; [|split; reflexivity].
  exact (X6_int_percent_truncates_towards_zero 10 (-15) Hr).
Defined.

(** X7.  An [int] percentage of either sign (products below
    [100 * 2^47] in absolute value, an input that fits the library, no
    failure of the environment), with the paddings the quotients rounded
    towards zero: if a new dimension is negative the run raises the [ValueError]
    of the canvas allocation and leaves the file store as it was; if both
    new dimensions are at least 1 and fit the library it stores an image
    of exactly those dimensions. *)
Theorem X7_int_percent_refused_or_stored
    {plat : Platform} inp outp (z : Z) w img W H :
  files w !! inp = Some (Encoded img) ->
  size img = (W, H) ->
  canvas_fits (W, H) ->
  Z.abs (W * z) < 100 * 2 ^ 47 -> Z.abs (H * z) < 100 * 2 ^ 47 ->
  (forall c, fault c = None) ->
  let new_width := W + 2 * Z.quot (W * z) 100 in
  let new_height := H + 2 * Z.quot (H * z) 100 in
  (new_width < 0 \/ new_height < 0 ->
   exists w',
     add_padding inp outp (Py.Int z) w
       = (inl (Py.ValueError "Width and height must be >= 0"), w') /\
     files w' = files w) /\
  (canvas_fits (new_width, new_height) ->
   stored_size (snd (add_padding inp outp (Py.Int z) w)) outp
     = Some (new_width, new_height)).
Proof.
  intros Hin Hsize Hinput HW HH Hok new_width new_height.
  assert (Hpx : padding_of W (Py.Int z) = inr (Z.quot (W * z) 100))
    by exact (int_truediv_100_signed (W * z) HW).
  assert (Hpy : padding_of H (Py.Int z) = inr (Z.quot (H * z) 100))
    by exact (int_truediv_100_signed (H * z) HH).
  split.
  - intros Hneg.
    destruct (add_padding_negative_canvas inp outp (Py.Int z) w img
                (Z.quot (W * z) 100) (Z.quot (H * z) 100))
      as (w' & Hrun & Hfiles & _); try assumption;
      try (rewrite Hsize; cbn [fst snd]; assumption).
    exists w'. split; assumption.
  - intros (Hx & Hy & _). cbn [fst snd] in Hx, Hy.
    destruct (add_padding_run inp outp (Py.Int z) w img
                (Z.quot (W * z) 100) (Z.quot (H * z) 100))
      as (w' & Hrun & Hfiles & _); try assumption;
      try (rewrite as_rgba_size, Hsize; cbn [fst snd]; (assumption || lia)).
    rewrite Hrun. cbn [snd].
    unfold stored_size. rewrite Hfiles, lookup_insert_eq, padded_size.
    rewrite as_rgba_size, Hsize. reflexivity.
Qed.

Lemma X7_int_percent_refused_or_stored_witness :
  files Demo.hundred_world !! "icon.png" = Some (Encoded (Demo.square 100)) /\
  size (Demo.square 100) = (100, 100) /\
  canvas_fits (100, 100) /\
  Z.abs (100 * -75) < 100 * 2 ^ 47 /\ Z.abs (100 * -75) < 100 * 2 ^ 47 /\
  (forall c, @fault Demo.platform c = None) /\
  (100 + 2 * Z.quot (100 * -75) 100 < 0 \/ 100 + 2 * Z.quot (100 * -75) 100 < 0 ->
   exists w',
     @add_padding Demo.platform "icon.png" "padded.png" (Py.Int (-75)) Demo.hundred_world
       = (inl (Py.ValueError "Width and height must be >= 0"), w') /\
     files w' = files Demo.hundred_world) /\
  (canvas_fits (100 + 2 * Z.quot (100 * -75) 100, 100 + 2 * Z.quot (100 * -75) 100) ->
   stored_size (snd (@add_padding Demo.platform "icon.png" "padded.png" (Py.Int (-75))
                       Demo.hundred_world)) "padded.png"
     = Some (100 + 2 * Z.quot (100 * -75) 100, 100 + 2 * Z.quot (100 * -75) 100)).
Proof.
  assert (Hin : files Demo.hundred_world !! "icon.png" = Some (Encoded (Demo.square 100)))
    by (vm_compute; reflexivity).
  assert (Hr : Z.abs (100 * -75) < 100 * 2 ^ 47) by (vm_compute; reflexivity).
  assert (Hok : forall c, @fault Demo.platform c = None) by reflexivity.
  assert (Hinput : canvas_fits (100, 100))
    by (vm_compute; repeat split; discriminate).
  split; [exact Hin|]. split; [reflexivity|].
  split; [exact Hinput|]. split; [exact Hr|]. split; [exact Hr|].
  split; [exact Hok|].
  exact (@X7_int_percent_refused_or_stored Demo.platform "icon.png" "padded.png"
           (-75) Demo.hundred_world (Demo.square 100) 100 100 Hin eq_refl
           Hinput Hr Hr Hok).
Defined.

(** X8.  What a run calls, whatever its outcome: the only file opened is
    the input path, the only file saved is the output path and that save
    is the last call, after a canvas was allocated; a conversion is
    always to RGBA and happens only for an input of another mode, and a
    run that returns on such an input has converted it. *)
Theorem X8_calls_of_a_run {plat : Platform} inp outp p w :
  exists l,
    calls (snd (add_padding inp outp p w)) = calls w ++ l /\
    (forall path, COpen path ∈ l -> path = inp) /\
    (forall path, CSave path ∈ l ->
       path = outp /\ last l = Some (CSave outp) /\ exists md sz, CNew md sz ∈ l) /\
    (forall to, CConvert to ∈ l ->
       to = "RGBA" /\
       exists img, files w !! inp = Some (Encoded img) /\ mode img <> "RGBA") /\
    (fst (add_padding inp outp p w) = inr tt ->
     CSave outp ∈ l /\
     forall img, files w !! inp = Some (Encoded img) ->
                 mode img <> "RGBA" -> CConvert "RGBA" ∈ l).
Proof.
  destruct (add_padding inp outp p w) as [r w'] eqn:Hrun.
  destruct (add_padding_effects _ _ _ _ _ _ Hrun)
    as (l & Hcalls & Hopen & Hsave & Hconv & _ & _ & Hret & Hnew & Hdone).
  exists l. cbn [fst snd].
  split; [exact Hcalls|]. split; [exact Hopen|]. split; [|split].
  - intros path Hel. destruct (Hsave path Hel) as [Hpath Hlast].
    split; [exact Hpath|]. split; [exact Hlast|exact (Hnew path Hel)].
  - exact Hconv.
  - intros Hr. split; [exact (Hret Hr)|exact (Hdone Hr)].
Qed.

(** X10.  For an input with no empty side and an [int] percentage
    [z >= 0] whose padded canvas fits the library, the stored width is the
    proportional width [W * (100 + 2 * z) / 100] rounded down by less than
    two pixels, and the same for the height: the padding is a share of the
    original dimension, so the content keeps at least [100 / (100 + 2 * z)]
    of each axis of the canvas. *)
Theorem X10_size_is_within_two_pixels_of_proportional
    {plat : Platform} inp outp (z : Z) w img W H :
  files w !! inp = Some (Encoded img) ->
  size img = (W, H) ->
  1 <= W -> 1 <= H -> 0 <= z ->
  canvas_fits (W + 2 * (W * z / 100), H + 2 * (H * z / 100)) ->
  (forall c, fault c = None) ->
  exists new_width new_height,
    stored_size (snd (add_padding inp outp (Py.Int z) w)) outp
      = Some (new_width, new_height) /\
    100 * new_width <= W * (100 + 2 * z) < 100 * (new_width + 2) /\
    100 * new_height <= H * (100 + 2 * z) < 100 * (new_height + 2).
Proof.
  intros Hin Hsize HW HH Hz Hfit Hok.
  destruct (add_padding_int_stores inp outp z w img W H)
    as (out & Hfiles & _ & Hout); try assumption.
  exists (W + 2 * (W * z / 100)), (H + 2 * (H * z / 100)).
  split.
  - unfold stored_size. rewrite Hfiles, lookup_insert_eq, Hout. reflexivity.
  - pose proof (Z.div_mod (W * z) 100 ltac:(lia)) as HqW.
    pose proof (Z.mod_pos_bound (W * z) 100 ltac:(lia)) as HrW.
    pose proof (Z.div_mod (H * z) 100 ltac:(lia)) as HqH.
    pose proof (Z.mod_pos_bound (H * z) 100 ltac:(lia)) as HrH.
    lia.
Qed.

Lemma X10_size_is_within_two_pixels_of_proportional_witness :
  files Demo.grey_world !! "icon.png" = Some (Encoded (Demo.grey 100 200)) /\
  size (Demo.grey 100 200) = (100, 200) /\
  1 <= 100 /\ 1 <= 200 /\ 0 <= 15 /\
  canvas_fits (100 + 2 * (100 * 15 / 100), 200 + 2 * (200 * 15 / 100)) /\
  (forall c, @fault Demo.platform c = None) /\
  exists new_width new_height,
    stored_size (snd (@add_padding Demo.platform "icon.png" "padded.png" (Py.Int 15)
                        Demo.grey_world)) "padded.png"
      = Some (new_width, new_height) /\
    100 * new_width <= 100 * (100 + 2 * 15) < 100 * (new_width + 2) /\
    100 * new_height <= 200 * (100 + 2 * 15) < 100 * (new_height + 2).
Proof.
  assert (Hin : files Demo.grey_world !! "icon.png" = Some (Encoded (Demo.grey 100 200)))
    by (vm_compute; reflexivity).
  assert (Hok : forall c, @fault Demo.platform c = None) by reflexivity.
  assert (Hfit : canvas_fits (100 + 2 * (100 * 15 / 100), 200 + 2 * (200 * 15 / 100)))
    by (vm_compute; repeat split; discriminate).
  repeat (split; [first [assumption | reflexivity | lia]|]).
  exact (@X10_size_is_within_two_pixels_of_proportional Demo.platform
           "icon.png" "padded.png" 15 Demo.grey_world (Demo.grey 100 200) 100 200
           Hin eq_refl ltac:(lia) ltac:(lia) ltac:(lia) Hfit Hok).
Defined.

(** X11.  More padding never gives a smaller canvas: for an input with no
    empty side and two [int] percentages [0 <= z1 <= z2], the canvas of
    [z2] fitting the library, the image stored for [z1] is no wider and no
    higher than the one stored for [z2]. *)
Theorem X11_canvas_grows_with_the_percentage
    {plat : Platform} inp outp (z1 z2 : Z) w img W H :
  files w !! inp = Some (Encoded img) ->
  size img = (W, H) ->
  1 <= W -> 1 <= H -> 0 <= z1 <= z2 ->
  canvas_fits (W + 2 * (W * z2 / 100), H + 2 * (H * z2 / 100)) ->
  (forall c, fault c = None) ->
  exists size1 size2,
    stored_size (snd (add_padding inp outp (Py.Int z1) w)) outp = Some size1 /\
    stored_size (snd (add_padding inp outp (Py.Int z2) w)) outp = Some size2 /\
    fst size1 <= fst size2 /\ snd size1 <= snd size2.
Proof.
  intros Hin Hsize HW HH Hz Hfit Hok.
  assert (0 <= W * z1 / 100 <= W * z2 / 100) as HmW
    by (split; [apply Z.div_pos; lia|apply Z.div_le_mono; nia]).
  assert (0 <= H * z1 / 100 <= H * z2 / 100) as HmH
    by (split; [apply Z.div_pos; lia|apply Z.div_le_mono; nia]).
  destruct (add_padding_int_stores inp outp z2 w img W H)
    as (out2 & Hfiles2 & _ & Hout2); try assumption; try lia.
  destruct (add_padding_int_stores inp outp z1 w img W H)
    as (out1 & Hfiles1 & _ & Hout1); try assumption; try lia.
  { apply (canvas_fits_le _ _ Hfit); cbn [fst snd]; lia. }
  exists (size out1), (size out2).
  unfold stored_size. rewrite Hfiles1, Hfiles2, !lookup_insert_eq.
  split; [reflexivity|]. split; [reflexivity|].
  rewrite Hout1, Hout2. cbn [fst snd]. lia.
Qed.

Lemma X11_canvas_grows_with_the_percentage_witness :
  files Demo.grey_world !! "icon.png" = Some (Encoded (Demo.grey 100 200)) /\
  size (Demo.grey 100 200) = (100, 200) /\
  1 <= 100 /\ 1 <= 200 /\ 0 <= 15 <= 20 /\
  canvas_fits (100 + 2 * (100 * 20 / 100), 200 + 2 * (200 * 20 / 100)) /\
  (forall c, @fault Demo.platform c = None) /\
  exists size1 size2,
    stored_size (snd (@add_padding Demo.platform "icon.png" "padded.png" (Py.Int 15)
                        Demo.grey_world)) "padded.png" = Some size1 /\
    stored_size (snd (@add_padding Demo.platform "icon.png" "padded.png" (Py.Int 20)
                        Demo.grey_world)) "padded.png" = Some size2 /\
    fst size1 <= fst size2 /\ snd size1 <= snd size2.
Proof.
  assert (Hin : files Demo.grey_world !! "icon.png" = Some (Encoded (Demo.grey 100 200)))
    by (vm_compute; reflexivity).
  assert (Hok : forall c, @fault Demo.platform c = None) by reflexivity.
  assert (Hfit : canvas_fits (100 + 2 * (100 * 20 / 100), 200 + 2 * (200 * 20 / 100)))
    by (vm_compute; repeat split; discriminate).
  assert (Hz : 0 <= 15 <= 20) by lia.
  repeat (split; [first [assumption | reflexivity | lia]|]).
  exact (@X11_canvas_grows_with_the_percentage Demo.platform
           "icon.png" "padded.png" 15 20 Demo.grey_world (Demo.grey 100 200) 100 200
           Hin eq_refl ltac:(lia) ltac:(lia) Hz Hfit Hok).
Defined.

(** X12.  Whenever the entry point exits with status 0 on an icon of size
    [W x H] (both below [5 * 2^47]), the image stored at the output path
    has size [(W + 2 * (W / 5), H + 2 * (H / 5))]: the hard-coded 20 percent
    pad each side by a fifth of the dimension, rounded down. *)
Theorem X12_exit_0_means_padded_by_a_fifth {plat : Platform} (w w' : world) img W H :
  main w = (0, w') ->
  files w !! input_file = Some (Encoded img) ->
  size img = (W, H) ->
  0 <= W < 5 * 2 ^ 47 -> 0 <= H < 5 * 2 ^ 47 ->
  stored_size w' output_file = Some (W + 2 * (W / 5), H + 2 * (H / 5)).
Proof.
  unfold main. intros Hmain Hin Hsize HW HH.
  change (5 * 2 ^ 47) with 703687441776640 in *.
  destruct (add_padding input_file output_file (Py.Int 20) w) as [[e|u] w1] eqn:Hrun;
    [discriminate Hmain|].
  injection Hmain as <-. destruct u.
  destruct (add_padding_inv _ _ _ _ _ Hrun)
    as (img' & px & py & Hin' & Hpx & Hpy & _ & _ & Hfiles & _).
  rewrite Hin in Hin'. injection Hin' as <-.
  rewrite as_rgba_size, Hsize in Hpx, Hpy. cbn [fst snd] in Hpx, Hpy.
  rewrite padding_of_int in Hpx
    by (change (100 * 2 ^ 47) with 14073748835532800; lia).
  rewrite padding_of_int in Hpy
    by (change (100 * 2 ^ 47) with 14073748835532800; lia).
  injection Hpx as <-. injection Hpy as <-.
  unfold stored_size. rewrite Hfiles, lookup_insert_eq, padded_size.
  rewrite as_rgba_size, Hsize. cbn [fst snd].
  replace (W * 20 / 100) with (W / 5)
    by (change 100 with (5 * 20); now rewrite Z.div_mul_cancel_r by lia).
  replace (H * 20 / 100) with (H / 5)
    by (change 100 with (5 * 20); now rewrite Z.div_mul_cancel_r by lia).
  reflexivity.
Qed.

Lemma X12_exit_0_means_padded_by_a_fifth_witness :
  @main Demo.platform Demo.icon_world = (0, snd (@main Demo.platform Demo.icon_world)) /\
  files Demo.icon_world !! input_file = Some (Encoded (Demo.grey 512 512)) /\
  size (Demo.grey 512 512) = (512, 512) /\
  0 <= 512 < 5 * 2 ^ 47 /\ 0 <= 512 < 5 * 2 ^ 47 /\
  stored_size (snd (@main Demo.platform Demo.icon_world)) output_file
    = Some (512 + 2 * (512 / 5), 512 + 2 * (512 / 5)).
Proof.
  assert (Hmain : @main Demo.platform Demo.icon_world
                  = (0, snd (@main Demo.platform Demo.icon_world)))
    by (vm_compute; reflexivity).
  assert (Hin : files Demo.icon_world !! input_file = Some (Encoded (Demo.grey 512 512)))
    by (vm_compute; reflexivity).
  assert (Hr : 0 <= 512 < 5 * 2 ^ 47) by lia.
  split; [exact Hmain|]. split; [exact Hin|]. split; [reflexivity|].
  split; [exact Hr|]. split; [exact Hr|].
  exact (@X12_exit_0_means_padded_by_a_fifth Demo.platform Demo.icon_world _
           (Demo.grey 512 512) 512 512 Hmain Hin eq_refl Hr Hr).
Defined.

(** X13.  A percentage below zero is a crop: when both paddings are at
    most zero and the run returns, the stored image has no transparent
    border at all; every one of its pixels is the blend of the content
    pixel [|padding|] further right and down, so [-padding_x] columns are
    cut from the left and from the right, and [-padding_y] rows from the
    top and from the bottom. *)
Theorem X13_negative_padding_crops {plat : Platform} inp outp p w w' :
  add_padding inp outp p w = (inr tt, w') ->
  exists img out px py,
    files w !! inp = Some (Encoded img) /\
    files w' !! outp = Some (Encoded out) /\
    padding_of (fst (size img)) p = inr px /\
    padding_of (snd (size img)) p = inr py /\
    (px <= 0 -> py <= 0 ->
     forall x y,
       0 <= x < fst (size out) -> 0 <= y < snd (size out) ->
       let content :=
         getpixel (Image.resized (as_rgba img) (size img)) (x - px, y - py) in
       getpixel out (x, y) = Image.blend_pixel (alpha content) (0, 0, 0, 0) content).
Proof.
  intros Hrun.
  destruct (add_padding_report _ _ _ _ _ Hrun)
    as (img & px & py & Hin & Hpx & Hpy & Hfiles & _).
  exists img, (padded (as_rgba img) px py), px, py.
  rewrite padded_size, as_rgba_size. cbn [fst snd].
  repeat split; try assumption.
  - rewrite Hfiles. apply lookup_insert_eq.
  - intros Hx0 Hy0 x y Hx Hy.
    rewrite <- (as_rgba_size img).
    apply padded_getpixel_content; rewrite as_rgba_size; lia.
Qed.

Lemma X13_negative_padding_crops_witness :
  @add_padding Demo.platform "icon.png" "padded.png" (Py.Int (-10)) Demo.hundred_world
    = (inr tt, snd (@add_padding Demo.platform "icon.png" "padded.png" (Py.Int (-10))
                      Demo.hundred_world)) /\
  exists img out px py,
    files Demo.hundred_world !! "icon.png" = Some (Encoded img) /\
    files (snd (@add_padding Demo.platform "icon.png" "padded.png" (Py.Int (-10))
                  Demo.hundred_world)) !! "padded.png" = Some (Encoded out) /\
    padding_of (fst (size img)) (Py.Int (-10)) = inr px /\
    padding_of (snd (size img)) (Py.Int (-10)) = inr py /\
    (px <= 0 -> py <= 0 ->
     forall x y,
       0 <= x < fst (size out) -> 0 <= y < snd (size out) ->
       let content :=
         getpixel (@Image.resized Demo.platform (@as_rgba Demo.platform img) (size img))
           (x - px, y - py) in
       getpixel out (x, y)
         = @Image.blend_pixel Demo.platform (alpha content) (0, 0, 0, 0) content).
Proof.
  assert (Hrun : @add_padding Demo.platform "icon.png" "padded.png" (Py.Int (-10))
                   Demo.hundred_world
                 = (inr tt, snd (@add_padding Demo.platform "icon.png" "padded.png"
                                   (Py.Int (-10)) Demo.hundred_world)))
    by (vm_compute; reflexivity).
  split; [exact Hrun|].
  exact (@X13_negative_padding_crops Demo.platform _ _ _ _ _ Hrun).
Defined.
